(** * Feature derivation of the taxi notebooks ([prep_df])

    The notebooks define one function of their own, [prep_df], which turns a
    raw taxi table into the model-ready table.  This file embeds the pandas
    operations that function calls (column-wise, with dtypes, on a store of
    table objects addressed by reference) and proves the properties the
    repository's specification states about it. *)

From Stdlib Require Import ZArith Lia Bool Floats Uint63 Sorted.
From stdpp Require Import base option list gmap strings.

Set Warnings "-inexact-float".

Local Open Scope Z_scope.

(** ** Numbers *)

Module Num.

(** float64 cells are IEEE binary64 values: the kernel's [float]. *)

Definition NaN : float := PrimFloat.nan.

Definition isna (x : float) : bool := PrimFloat.is_nan x.

(** int64 arithmetic wraps around silently in numpy. *)
Definition wrap64 (z : Z) : Z := (z + 2 ^ 63) mod 2 ^ 64 - 2 ^ 63.

(** int64 -> float64 conversion (round to nearest even, done by
    [of_uint63] on the magnitude; the magnitude of the least int64 does not
    fit 63 bits and is a power of two). *)
Definition float_of_int (z : Z) : float :=
  if z =? - 2 ^ 63 then (-0x1p63)%float
  else if z <? 0 then (- PrimFloat.of_uint63 (Uint63.of_Z (- z)))%float
  else PrimFloat.of_uint63 (Uint63.of_Z z).

End Num.

(** ** Timestamps

    A datetime64[ns] cell is a count of nanoseconds since 1970-01-01T00:00,
    or the missing value NaT.  The calendar fields are the ones the [.dt]
    accessor of pandas gives. *)

Module Timestamp.

Definition ns_per_minute : Z := 60 * 1000000000.
Definition ns_per_hour : Z := 60 * ns_per_minute.
Definition ns_per_day : Z := 24 * ns_per_hour.

Definition days (t : Z) : Z := t / ns_per_day.

(** Monday is 0; 1970-01-01 was a Thursday. *)
Definition weekday (t : Z) : Z := (days t + 3) mod 7.

Definition hour (t : Z) : Z := (t / ns_per_hour) mod 24.

Definition minute (t : Z) : Z := (t / ns_per_minute) mod 60.

(** Proleptic Gregorian calendar, days counted from 1970-01-01. *)
Definition days_from_civil (y m d : Z) : Z :=
  let y' := if m <=? 2 then y - 1 else y in
  let era := y' / 400 in
  let yoe := y' - era * 400 in
  let mp := (m + 9) mod 12 in
  let doy := (153 * mp + 2) / 5 + d - 1 in
  let doe := yoe * 365 + yoe / 4 - yoe / 100 + doy in
  era * 146097 + doe - 719468.

Definition year_of_days (n : Z) : Z :=
  let z := n + 719468 in
  let era := z / 146097 in
  let doe := z - era * 146097 in
  let yoe := (doe - doe / 1460 + doe / 36524 - doe / 146096) / 365 in
  let doy := doe - (365 * yoe + yoe / 4 - yoe / 100) in
  let mp := (5 * doy + 2) / 153 in
  let m := if mp <? 10 then mp + 3 else mp - 9 in
  let y := yoe + era * 400 in
  if m <=? 2 then y + 1 else y.

(** [.dt.weekofyear] (pandas 1.x) is the ISO 8601 week number: the week of
    a day is the week of its Thursday, and the weeks of a year are counted
    from the one holding its first Thursday. *)
Definition weekofyear (t : Z) : Z :=
  let thursday := days t - weekday t + 3 in
  let y := year_of_days thursday in
  (thursday - days_from_civil y 1 1) / 7 + 1.

Definition of_civil (y m d hh mm : Z) : Z :=
  days_from_civil y m d * ns_per_day + hh * ns_per_hour + mm * ns_per_minute.

End Timestamp.

(** ** Exceptions and results *)

Inductive Exn : Type :=
  | KeyError (c : string)
  | AttributeError
  | TypeError
  | ValueError
  | ReferenceError.

Inductive result (A : Type) : Type :=
  | Ok (a : A)
  | Raise (e : Exn).

Arguments Ok {A} a.
Arguments Raise {A} e.

Definition rbind {A B} (r : result A) (k : A -> result B) : result B :=
  match r with
  | Ok a => k a
  | Raise e => Raise e
  end.

Notation "'let!' x := r 'in' k" := (rbind r (fun x => k))
  (at level 10, x name, r at level 100, k at level 200).

Fixpoint rmapM {A B} (f : A -> result B) (l : list A) : result (list B) :=
  match l with
  | [] => Ok []
  | a :: l' => let! b := f a in let! bs := rmapM f l' in Ok (b :: bs)
  end.

(** Element-wise binary operation on two columns of one table; operands of
    different lengths do not occur inside one table and raise. *)
Fixpoint zip_exact {A B C} (f : A -> B -> C) (xs : list A) (ys : list B)
  : result (list C) :=
  match xs, ys with
  | [], [] => Ok []
  | x :: xs', y :: ys' => let! zs := zip_exact f xs' ys' in Ok (f x y :: zs)
  | _, _ => Raise ValueError
  end.

(** Boolean indexing: keep the entries whose mask bit is set. *)
Fixpoint mask_filter {A} (m : list bool) (xs : list A) : list A :=
  match m, xs with
  | b :: m', x :: xs' =>
      if b then x :: mask_filter m' xs' else mask_filter m' xs'
  | _, _ => []
  end.

(** ** Series: a column of one dtype *)

Inductive Series : Type :=
  | Float64 (xs : list float)
  | Int64 (xs : list Z)
  | Datetime64 (xs : list (option Z)).

Module series.

Definition len (s : Series) : nat :=
  match s with
  | Float64 xs => length xs
  | Int64 xs => length xs
  | Datetime64 xs => length xs
  end.

Definition filter (m : list bool) (s : Series) : Series :=
  match s with
  | Float64 xs => Float64 (mask_filter m xs)
  | Int64 xs => Int64 (mask_filter m xs)
  | Datetime64 xs => Datetime64 (mask_filter m xs)
  end.

(** [s > 0]: a boolean mask; NaN compares false. *)
Definition gt0 (s : Series) : result (list bool) :=
  match s with
  | Float64 xs => Ok (map (fun x => (0 <? x)%float) xs)
  | Int64 xs => Ok (map (fun z => 0 <? z) xs)
  | Datetime64 _ => Raise TypeError
  end.

(** The values of a numeric column as float64. *)
Definition to_float (s : Series) : result (list float) :=
  match s with
  | Float64 xs => Ok xs
  | Int64 xs => Ok (map Num.float_of_int xs)
  | Datetime64 _ => Raise TypeError
  end.

(** [a / b]: true division, always float64. *)
Definition truediv (a b : Series) : result Series :=
  let! xs := to_float a in
  let! ys := to_float b in
  let! zs := zip_exact PrimFloat.div xs ys in
  Ok (Float64 zs).

(** [s * k] for an integer constant [k]. *)
Definition mul_int (s : Series) (k : Z) : result Series :=
  match s with
  | Float64 xs => Ok (Float64 (map (fun x => (x * Num.float_of_int k)%float) xs))
  | Int64 xs => Ok (Int64 (map (fun z => Num.wrap64 (z * k)) xs))
  | Datetime64 _ => Raise TypeError
  end.

(** [a + b]: int64 when both are, float64 otherwise. *)
Definition add (a b : Series) : result Series :=
  match a, b with
  | Int64 xs, Int64 ys =>
      let! zs := zip_exact (fun x y => Num.wrap64 (x + y)) xs ys in
      Ok (Int64 zs)
  | _, _ =>
      let! xs := to_float a in
      let! ys := to_float b in
      let! zs := zip_exact PrimFloat.add xs ys in
      Ok (Float64 zs)
  end.

(** A calendar field of the [.dt] accessor: int64 when no entry is NaT,
    float64 with NaN at the NaT entries otherwise; columns that are not
    datetimes have no [.dt]. *)
Definition dt_field (f : Z -> Z) (s : Series) : result Series :=
  match s with
  | Datetime64 ts =>
      match mapM (fun o : option Z => o) ts with
      | Some present => Ok (Int64 (map f present))
      | None =>
          Ok (Float64 (map (fun o : option Z =>
                              match o with
                              | Some t => Num.float_of_int (f t)
                              | None => Num.NaN
                              end) ts))
      end
  | _ => Raise AttributeError
  end.

Definition astype_float (s : Series) : result Series :=
  let! xs := to_float s in Ok (Float64 xs).

(** [fillna v]: int64 columns hold no missing value.  Filling a datetime
    column with a number leaves the dtypes modelled here. *)
Definition fillna (v : float) (s : Series) : result Series :=
  match s with
  | Float64 xs => Ok (Float64 (map (fun x => if Num.isna x then v else x) xs))
  | Int64 xs => Ok (Int64 xs)
  | Datetime64 _ => Raise TypeError
  end.

End series.

(** ** DataFrame: an index of row labels and named columns, in order

    A column is looked up by its name, the first of that name.  pandas reads
    a name that several columns carry as a table of those columns; the
    operations below are the ones for tables whose column names are
    distinct ([distinct_columns]), as [read_csv] gives them. *)

Record DataFrame : Type := mkDataFrame {
  index : list Z;
  columns : list (string * Series);
}.

Module frame.

Fixpoint lookup_col (cs : list (string * Series)) (c : string) : option Series :=
  match cs with
  | [] => None
  | (c', s) :: cs' => if String.eqb c' c then Some s else lookup_col cs' c
  end.

(** [d[c]] for one column name. *)
Definition col (d : DataFrame) (c : string) : result Series :=
  match lookup_col (columns d) c with
  | Some s => Ok s
  | None => Raise (KeyError c)
  end.

(** [d.c]: attribute access gives the column of that name, and raises
    AttributeError when there is none. *)
Definition attr (d : DataFrame) (c : string) : result Series :=
  match lookup_col (columns d) c with
  | Some s => Ok s
  | None => Raise AttributeError
  end.

(** [d[mask]] *)
Definition getitem_mask (m : list bool) (d : DataFrame) : result DataFrame :=
  if Nat.eqb (length m) (length (index d)) then
    Ok {| index := mask_filter m (index d);
          columns := map (fun cs => (cs.1, series.filter m cs.2)) (columns d) |}
  else Raise ValueError.

(** [d[names]] for a list of column names. *)
Definition getitem_cols (names : list string) (d : DataFrame) : result DataFrame :=
  let! cs := rmapM (fun c => let! s := col d c in Ok (c, s)) names in
  Ok {| index := index d; columns := cs |}.

(** [d.copy()]: the new object holds the same values. *)
Definition copy (d : DataFrame) : result DataFrame := Ok d.

Fixpoint set_col (cs : list (string * Series)) (c : string) (s : Series)
  : list (string * Series) :=
  match cs with
  | [] => [(c, s)]
  | (c', s') :: cs' =>
      if String.eqb c' c then (c', s) :: cs' else (c', s') :: set_col cs' c s
  end.

(** [d[c] = s]: replaces the column in place, or appends a new one. *)
Definition setitem (c : string) (s : Series) (d : DataFrame) : result DataFrame :=
  if Nat.eqb (series.len s) (length (index d)) then
    Ok {| index := index d; columns := set_col (columns d) c s |}
  else Raise ValueError.

Definition astype_float (d : DataFrame) : result DataFrame :=
  let! cs := rmapM (fun cs => let! s := series.astype_float cs.2 in Ok (cs.1, s))
                  (columns d) in
  Ok {| index := index d; columns := cs |}.

Definition fillna (v : float) (d : DataFrame) : result DataFrame :=
  let! cs := rmapM (fun cs => let! s := series.fillna v cs.2 in Ok (cs.1, s))
                  (columns d) in
  Ok {| index := index d; columns := cs |}.

End frame.

(** ** The object store

    Python variables hold references to table objects.  Indexing, [copy],
    [astype] and [fillna] build a new object; [d[c] = s] changes the object
    [d] refers to, for every holder of that reference.  A computation takes
    the store and gives back the store and a value or an exception. *)

Definition M (A : Type) : Type :=
  gmap nat DataFrame -> gmap nat DataFrame * result A.

Definition ret {A} (a : A) : M A := fun h => (h, Ok a).

Definition bind {A B} (m : M A) (k : A -> M B) : M B :=
  fun h =>
    match m h with
    | (h', Ok a) => k a h'
    | (h', Raise e) => (h', Raise e)
    end.

Notation "'let*' x := m 'in' k" := (bind m (fun x => k))
  (at level 10, x name, m at level 100, k at level 200).

Definition lift {A} (r : result A) : M A := fun h => (h, r).

(** Evaluate [f] on the object at [l]. *)
Definition read {A} (l : nat) (f : DataFrame -> result A) : M A :=
  fun h =>
    match h !! l with
    | Some d => (h, f d)
    | None => (h, Raise ReferenceError)
    end.

(** Build a new object from the one at [l]; the result is its reference. *)
Definition new_from (l : nat) (f : DataFrame -> result DataFrame) : M nat :=
  fun h =>
    match h !! l with
    | Some d =>
        match f d with
        | Ok d' => let l' := fresh (dom h) in (<[l' := d']> h, Ok l')
        | Raise e => (h, Raise e)
        end
    | None => (h, Raise ReferenceError)
    end.

(** Change the object at [l] in place. *)
Definition update (l : nat) (f : DataFrame -> result DataFrame) : M unit :=
  fun h =>
    match h !! l with
    | Some d =>
        match f d with
        | Ok d' => (<[l := d']> h, Ok tt)
        | Raise e => (h, Raise e)
        end
    | None => (h, Raise ReferenceError)
    end.

Module pd.

Definition getattr (d : nat) (c : string) : M Series :=
  read d (fun x => frame.attr x c).

Definition getitem_mask (d : nat) (m : list bool) : M nat :=
  new_from d (frame.getitem_mask m).

Definition getitem_cols (d : nat) (names : list string) : M nat :=
  new_from d (frame.getitem_cols names).

Definition copy (d : nat) : M nat := new_from d frame.copy.

Definition setitem (d : nat) (c : string) (s : Series) : M unit :=
  update d (frame.setitem c s).

Definition astype_float (d : nat) : M nat := new_from d frame.astype_float.

Definition fillna (d : nat) (v : float) : M nat := new_from d (frame.fillna v).

End pd.

(** ** The notebooks' code *)

Definition raw_features : list string :=
  ["tpep_pickup_datetime"; "passenger_count"; "tip_amount"; "fare_amount"]%string.

Definition features : list string :=
  ["pickup_weekday"; "pickup_weekofyear"; "pickup_hour"; "pickup_week_hour";
   "pickup_minute"; "passenger_count"]%string.

Definition label : string := "tip_fraction".

(** [df = taxi_df[taxi_df.fare_amount > 0][raw_features].copy()] *)
Definition select_rows (taxi_df : nat) : M nat :=
  let* fare := pd.getattr taxi_df "fare_amount" in
  let* mask := lift (series.gt0 fare) in
  let* positive := pd.getitem_mask taxi_df mask in
  let* raw := pd.getitem_cols positive raw_features in
  pd.copy raw.

(** [df[label] = df.tip_amount / df.fare_amount] *)
Definition set_label (df : nat) : M unit :=
  let* tip := pd.getattr df "tip_amount" in
  let* fare := pd.getattr df "fare_amount" in
  let* fraction := lift (series.truediv tip fare) in
  pd.setitem df label fraction.

(** [df[c] = df.tpep_pickup_datetime.dt.<field>] *)
Definition set_dt_field (df : nat) (c : string) (field : Z -> Z) : M unit :=
  let* ts := pd.getattr df "tpep_pickup_datetime" in
  let* v := lift (series.dt_field field ts) in
  pd.setitem df c v.

(** [df['pickup_week_hour'] = (df.pickup_weekday * 24) + df.pickup_hour] *)
Definition set_week_hour (df : nat) : M unit :=
  let* wd := pd.getattr df "pickup_weekday" in
  let* wd24 := lift (series.mul_int wd 24) in
  let* hr := pd.getattr df "pickup_hour" in
  let* wh := lift (series.add wd24 hr) in
  pd.setitem df "pickup_week_hour" wh.

(** [df = df[features + [label]].astype(float).fillna(-1)] *)
Definition finish (df : nat) : M nat :=
  let* chosen := pd.getitem_cols df (features ++ [label]) in
  let* floats := pd.astype_float chosen in
  pd.fillna floats (-1)%float.

(** The statements of [prep_df] after its first one. *)
Definition derive (df : nat) : M nat :=
  let* _ := set_label df in
  let* _ := set_dt_field df "pickup_weekday" Timestamp.weekday in
  let* _ := set_dt_field df "pickup_weekofyear" Timestamp.weekofyear in
  let* _ := set_dt_field df "pickup_hour" Timestamp.hour in
  let* _ := set_week_hour df in
  let* _ := set_dt_field df "pickup_minute" Timestamp.minute in
  finish df.

Definition prep_df (taxi_df : nat) : M nat :=
  let* df := select_rows taxi_df in
  derive df.

(** The table a run of [prep_df] returns, when it returns one. *)
Definition prep_df_result (h : gmap nat DataFrame) (taxi_df : nat)
  : option DataFrame :=
  match prep_df taxi_df h with
  | (h', Ok out) => h' !! out
  | (_, Raise _) => None
  end.

(** ** Reading tables *)

Inductive scalar : Type :=
  | SFloat (x : float)
  | SInt (z : Z)
  | STime (t : option Z).

Definition series_nth (s : Series) (i : nat) : option scalar :=
  match s with
  | Float64 xs => SFloat <$> xs !! i
  | Int64 xs => SInt <$> xs !! i
  | Datetime64 xs => STime <$> xs !! i
  end.

(** The cell of column [c] in the row at position [i]. *)
Definition cell (d : DataFrame) (c : string) (i : nat) : option scalar :=
  s ← frame.lookup_col (columns d) c; series_nth s i.

Definition one_row_table (ts : option Z) (pc tip fare : float) : DataFrame :=
  {| index := [0];
     columns := [("VendorID", Int64 [1]);
                 ("tpep_pickup_datetime", Datetime64 [ts]);
                 ("passenger_count", Float64 [pc]);
                 ("fare_amount", Float64 [fare]);
                 ("tip_amount", Float64 [tip])]%string |}.

(** ** The derivation on table values

    What each statement of [prep_df] computes from the value of the object
    it reads, without the store.  [prep_df_refines] relates the two. *)

Module value.

Definition select_rows (taxi : DataFrame) : result DataFrame :=
  let! fare := frame.attr taxi "fare_amount" in
  let! mask := series.gt0 fare in
  let! positive := frame.getitem_mask mask taxi in
  let! raw := frame.getitem_cols raw_features positive in
  frame.copy raw.

Definition set_label (df : DataFrame) : result DataFrame :=
  let! tip := frame.attr df "tip_amount" in
  let! fare := frame.attr df "fare_amount" in
  let! fraction := series.truediv tip fare in
  frame.setitem label fraction df.

Definition set_dt_field (c : string) (field : Z -> Z) (df : DataFrame)
  : result DataFrame :=
  let! ts := frame.attr df "tpep_pickup_datetime" in
  let! v := series.dt_field field ts in
  frame.setitem c v df.

Definition set_week_hour (df : DataFrame) : result DataFrame :=
  let! wd := frame.attr df "pickup_weekday" in
  let! wd24 := series.mul_int wd 24 in
  let! hr := frame.attr df "pickup_hour" in
  let! wh := series.add wd24 hr in
  frame.setitem "pickup_week_hour" wh df.

Definition finish (df : DataFrame) : result DataFrame :=
  let! chosen := frame.getitem_cols (features ++ [label]) df in
  let! floats := frame.astype_float chosen in
  frame.fillna (-1)%float floats.

Definition derive (df : DataFrame) : result DataFrame :=
  let! df1 := set_label df in
  let! df2 := set_dt_field "pickup_weekday" Timestamp.weekday df1 in
  let! df3 := set_dt_field "pickup_weekofyear" Timestamp.weekofyear df2 in
  let! df4 := set_dt_field "pickup_hour" Timestamp.hour df3 in
  let! df5 := set_week_hour df4 in
  let! df6 := set_dt_field "pickup_minute" Timestamp.minute df5 in
  finish df6.

Definition prep_df (taxi : DataFrame) : result DataFrame :=
  let! df := select_rows taxi in
  derive df.

End value.

(** ** Row-wise reading of tables *)

Module row.

(** [v > 0] and [v <= 0] for one cell. *)
Definition gt0 (v : scalar) : bool :=
  match v with
  | SFloat x => (0 <? x)%float
  | SInt z => 0 <? z
  | STime _ => false
  end.

Definition le0 (v : scalar) : bool :=
  match v with
  | SFloat x => (x <=? 0)%float
  | SInt z => z <=? 0
  | STime _ => false
  end.

(** A numeric cell as a float64. *)
Definition to_float (v : scalar) : option float :=
  match v with
  | SFloat x => Some x
  | SInt z => Some (Num.float_of_int z)
  | STime _ => None
  end.

(** What [fillna(-1)] leaves in a float64 cell. *)
Definition fill (x : float) : float :=
  if Num.isna x then (-1)%float else x.

End row.

Definition fare_positive (d : DataFrame) (i : nat) : bool :=
  match cell d "fare_amount" i with
  | Some v => row.gt0 v
  | None => false
  end.

(** The positions of the rows with [fare_amount > 0], in table order. *)
Definition positive_rows (d : DataFrame) : list nat :=
  List.filter (fare_positive d) (seq 0 (length (index d))).

(** The positions a mask keeps. *)
Fixpoint mask_positions (m : list bool) : list nat :=
  match m with
  | [] => []
  | b :: m' =>
      if b then 0%nat :: map S (mask_positions m') else map S (mask_positions m')
  end.

Fixpoint distinct (names : list string) : bool :=
  match names with
  | [] => true
  | c :: rest => negb (existsb (String.eqb c) rest) && distinct rest
  end.

(** No two columns of the table have the same name. *)
Definition distinct_columns (d : DataFrame) : Prop :=
  distinct (map fst (columns d)) = true.

Definition numeric (s : Series) : Prop :=
  match s with
  | Float64 _ | Int64 _ => True
  | Datetime64 _ => False
  end.

(** The precondition of the derivation: a table (every column as long as
    the index) with a datetime pickup column and numeric passenger-count,
    tip and fare columns.  That the column names are distinct is asked
    beside it, by [distinct_columns]. *)
Record taxi_table (d : DataFrame) : Prop := mkTaxiTable {
  tt_rect : Forall (fun cs => series.len cs.2 = length (index d)) (columns d);
  tt_pickup : exists ts,
    frame.lookup_col (columns d) "tpep_pickup_datetime" = Some (Datetime64 ts);
  tt_passenger : exists s,
    frame.lookup_col (columns d) "passenger_count" = Some s /\ numeric s;
  tt_tip : exists s,
    frame.lookup_col (columns d) "tip_amount" = Some s /\ numeric s;
  tt_fare : exists s,
    frame.lookup_col (columns d) "fare_amount" = Some s /\ numeric s;
}.

(** ** Reasoning about runs *)

(** [h'] holds every object of [h], unchanged. *)
Definition preserves (h h' : gmap nat DataFrame) : Prop :=
  forall l d, h !! l = Some d -> h' !! l = Some d.

(** [h'] differs from [h] at most in the object at [l]. *)
Definition modifies_only (l : nat) (h h' : gmap nat DataFrame) : Prop :=
  forall l', l' <> l -> h' !! l' = h !! l'.

(** [m] changes the object at [l] the way [f] says and nothing else. *)
Definition updates (l : nat) (m : M unit) (f : DataFrame -> result DataFrame)
  : Prop :=
  forall h d, h !! l = Some d ->
    exists h', modifies_only l h h' /\
      match f d with
      | Ok d' => m h = (h', Ok tt) /\ h' !! l = Some d'
      | Raise e => m h = (h', Raise e)
      end.

(** [m] builds from the object at [l] a new object the way [f] says; it may
    change [l] itself on the way, and nothing else. *)
Definition builds (l : nat) (m : M nat) (f : DataFrame -> result DataFrame)
  : Prop :=
  forall h d, h !! l = Some d ->
    exists h', (forall l' x, l' <> l -> h !! l' = Some x -> h' !! l' = Some x) /\
      match f d with
      | Ok d' => exists l', m h = (h', Ok l') /\ h !! l' = None /\ h' !! l' = Some d'
      | Raise e => m h = (h', Raise e)
      end.

(** As [builds], and the object at [l] stays as it is too. *)
Definition builds_pure (l : nat) (m : M nat) (f : DataFrame -> result DataFrame)
  : Prop :=
  forall h d, h !! l = Some d ->
    exists h', preserves h h' /\
      match f d with
      | Ok d' => exists l', m h = (h', Ok l') /\ h !! l' = None /\ h' !! l' = Some d'
      | Raise e => m h = (h', Raise e)
      end.

(** ** What the derivation computes *)

(** A calendar column cell after the cast and [fillna(-1)]. *)
Definition calendar_cell (field : Z -> Z) (t : option Z) : float :=
  match t with
  | Some t => row.fill (Num.float_of_int (field t))
  | None => (-1)%float
  end.

Definition week_hour_cell (t : option Z) : float :=
  match t with
  | Some t =>
      row.fill (Num.float_of_int (Timestamp.weekday t * 24 + Timestamp.hour t))
  | None => (-1)%float
  end.

(** The output table for kept rows with labels [idx], pickup times [ts],
    and passenger counts, tips and fares as floats. *)
Definition derived (idx : list Z) (ts : list (option Z)) (pc tip fare : list float)
  : DataFrame :=
  {| index := idx;
     columns :=
       [("pickup_weekday", Float64 (map (calendar_cell Timestamp.weekday) ts));
        ("pickup_weekofyear", Float64 (map (calendar_cell Timestamp.weekofyear) ts));
        ("pickup_hour", Float64 (map (calendar_cell Timestamp.hour) ts));
        ("pickup_week_hour", Float64 (map week_hour_cell ts));
        ("pickup_minute", Float64 (map (calendar_cell Timestamp.minute) ts));
        ("passenger_count", Float64 (map row.fill pc));
        ("tip_fraction", Float64 (map row.fill (zip_with PrimFloat.div tip fare)))
       ]%string |}.

(** ** Rows *)

(** A raw trip row: its index label and the four raw columns. *)
Record Trip : Type := mkTrip {
  trip_label : Z;
  trip_pickup : option Z;
  trip_passengers : scalar;
  trip_tip : scalar;
  trip_fare : scalar;
}.

(** A model-ready row: its index label, the six features and the label. *)
Record FeatureRow : Type := mkFeatureRow {
  row_label : Z;
  row_weekday : float;
  row_weekofyear : float;
  row_hour : float;
  row_week_hour : float;
  row_minute : float;
  row_passengers : float;
  row_tip_fraction : float;
}.

Definition pickup_cell (d : DataFrame) (i : nat) : option (option Z) :=
  match cell d "tpep_pickup_datetime" i with
  | Some (STime t) => Some t
  | _ => None
  end.

Definition float_cell (d : DataFrame) (c : string) (i : nat) : option float :=
  match cell d c i with
  | Some (SFloat x) => Some x
  | _ => None
  end.

Definition trip_at (d : DataFrame) (i : nat) : option Trip :=
  lbl ← index d !! i;
  t ← pickup_cell d i;
  pc ← cell d "passenger_count" i;
  tip ← cell d "tip_amount" i;
  fare ← cell d "fare_amount" i;
  Some (mkTrip lbl t pc tip fare).

Definition features_at (d : DataFrame) (k : nat) : option FeatureRow :=
  lbl ← index d !! k;
  wd ← float_cell d "pickup_weekday" k;
  wk ← float_cell d "pickup_weekofyear" k;
  hr ← float_cell d "pickup_hour" k;
  wh ← float_cell d "pickup_week_hour" k;
  mn ← float_cell d "pickup_minute" k;
  pc ← float_cell d "passenger_count" k;
  fr ← float_cell d "tip_fraction" k;
  Some (mkFeatureRow lbl wd wk hr wh mn pc fr).

(** The model-ready row of one trip: calendar fields of the pickup time
    ([-1] when it is missing), the passenger count and the tip fraction,
    each with [-1] in place of NaN. *)
Definition derive_row (r : Trip) : option FeatureRow :=
  pc ← row.to_float (trip_passengers r);
  tip ← row.to_float (trip_tip r);
  fare ← row.to_float (trip_fare r);
  Some {| row_label := trip_label r;
          row_weekday := calendar_cell Timestamp.weekday (trip_pickup r);
          row_weekofyear := calendar_cell Timestamp.weekofyear (trip_pickup r);
          row_hour := calendar_cell Timestamp.hour (trip_pickup r);
          row_week_hour := week_hour_cell (trip_pickup r);
          row_minute := calendar_cell Timestamp.minute (trip_pickup r);
          row_passengers := row.fill pc;
          row_tip_fraction := row.fill (tip / fare) |}.

(** A cell that is a zero (of either sign, for a float). *)
Definition is_zero (v : scalar) : bool :=
  match v with
  | SFloat x => (x =? 0)%float
  | SInt z => z =? 0
  | STime _ => false
  end.

(** ** The claims that do not hold as worded *)

(** C1 as the specification words it: the label of an output row is the
    quotient of the tip and the fare of the input row it comes from. *)
Definition label_is_quotient : Prop :=
  forall (h : gmap nat DataFrame) taxi_df taxi out k i a b x y,
    h !! taxi_df = Some taxi ->
    taxi_table taxi ->
    prep_df_result h taxi_df = Some out ->
    positive_rows taxi !! k = Some i ->
    cell taxi "tip_amount" i = Some a ->
    cell taxi "fare_amount" i = Some b ->
    row.gt0 b = true ->
    row.to_float a = Some x ->
    row.to_float b = Some y ->
    float_cell out "tip_fraction" k = Some (x / y)%float.

(** C4 as the specification words it: in every output row the week-hour
    is the weekday times 24 plus the hour. *)
Definition week_hour_is_sum : Prop :=
  forall (h : gmap nat DataFrame) taxi_df taxi out k wd hr wh,
    h !! taxi_df = Some taxi ->
    taxi_table taxi ->
    prep_df_result h taxi_df = Some out ->
    float_cell out "pickup_weekday" k = Some wd ->
    float_cell out "pickup_hour" k = Some hr ->
    float_cell out "pickup_week_hour" k = Some wh ->
    wh = (wd * 24 + hr)%float.

(** One trip with fare 10 and no tip recorded. *)
Definition missing_tip_table : DataFrame :=
  one_row_table (Some (Timestamp.of_civil 2019 1 7 13 45)) 1 Num.NaN 10.

(** One trip with fare 10, tip 2 and no pickup time recorded. *)
Definition missing_pickup_table : DataFrame := one_row_table None 1 2 10.

(** ** A sample *)

(** A small table to try the derivation on: four trips, of which the
    second and the third have no positive fare and the last has neither a
    pickup time nor a tip. *)
Definition sample_taxi : DataFrame :=
  {| index := [0; 1; 2; 3];
     columns :=
       [("VendorID", Int64 [1; 2; 2; 1]);
        ("tpep_pickup_datetime",
         Datetime64 [Some (Timestamp.of_civil 2019 1 7 13 45);
                     Some (Timestamp.of_civil 2019 1 8 9 30);
                     Some (Timestamp.of_civil 2019 1 9 23 59);
                     None]);
        ("passenger_count", Int64 [1; 2; 1; 3]);
        ("fare_amount", Float64 [10; 0; -3; 5]%float);
        ("tip_amount", Float64 [2%float; 1%float; 0%float; Num.NaN])]%string |}.

Definition sample_store : gmap nat DataFrame := {[ 7%nat := sample_taxi ]}.

Definition sample_features : DataFrame :=
  {| index := [0; 3];
     columns :=
       [("pickup_weekday", Float64 [0; -1]%float);
        ("pickup_weekofyear", Float64 [2; -1]%float);
        ("pickup_hour", Float64 [13; -1]%float);
        ("pickup_week_hour", Float64 [13; -1]%float);
        ("pickup_minute", Float64 [45; -1]%float);
        ("passenger_count", Float64 [1; 3]%float);
        ("tip_fraction", Float64 [0.2; -1]%float)]%string |}.

(** ** The code around [prep_df]

    The notebooks use the table [prep_df] returns: they select the feature
    columns and the label from it, apply [myfunc] to it, and derive the
    features of a large table part by part. *)

(** [d[c]] for one column name. *)
Definition pd_getitem (d : nat) (c : string) : M Series :=
  read d (fun x => frame.col x c).

(** [def myfunc(df): return df['pickup_weekday'] * 5] *)
Definition myfunc (df : nat) : M Series :=
  let* wd := pd_getitem df "pickup_weekday" in
  lift (series.mul_int wd 5).

(** The arguments [taxi_feat[features], taxi_feat[label]] the notebooks
    pass to [train_test_split] and to [fit]. *)
Definition model_inputs (taxi_feat : nat) : M (nat * Series) :=
  let* X := pd.getitem_cols taxi_feat features in
  let* y := pd_getitem taxi_feat label in
  ret (X, y).

(** What [myfunc] computes from the value of the table. *)
Definition myfunc_value (df : DataFrame) : result Series :=
  let! wd := frame.col df "pickup_weekday" in
  series.mul_int wd 5.

(** Tables in parts.  [pd.concat([a, b])] of two tables with the same
    column names in the same order and the same dtypes puts the rows of
    [b] under those of [a], index labels included.  How pandas aligns and
    casts tables that differ in columns or dtypes is not modelled: [stack]
    gives [None] for them. *)
Definition series_stack (s t : Series) : option Series :=
  match s, t with
  | Float64 xs, Float64 ys => Some (Float64 (xs ++ ys))
  | Int64 xs, Int64 ys => Some (Int64 (xs ++ ys))
  | Datetime64 xs, Datetime64 ys => Some (Datetime64 (xs ++ ys))
  | _, _ => None
  end.

Fixpoint stack_cols (cs ds : list (string * Series))
  : option (list (string * Series)) :=
  match cs, ds with
  | [], [] => Some []
  | (c, s) :: cs', (d, t) :: ds' =>
      if String.eqb c d then
        st ← series_stack s t;
        rest ← stack_cols cs' ds';
        Some ((c, st) :: rest)
      else None
  | _, _ => None
  end.

Definition stack (a b : DataFrame) : option DataFrame :=
  cs ← stack_cols (columns a) (columns b);
  Some {| index := index a ++ index b; columns := cs |}.

(** Every column is as long as the index. *)
Definition rectangular (d : DataFrame) : Prop :=
  Forall (fun cs => series.len cs.2 = length (index d)) (columns d).

(** More sample tables: the raw columns of [sample_taxi] alone, a second
    part with the columns and dtypes of [sample_taxi], the two parts in one
    table, and a table in which no fare is positive. *)
Definition sample_raw : DataFrame :=
  {| index := index sample_taxi; columns := tail (columns sample_taxi) |}.

Definition sample_part : DataFrame :=
  {| index := [0; 1];
     columns :=
       [("VendorID", Int64 [2; 2]);
        ("tpep_pickup_datetime",
         Datetime64 [Some (Timestamp.of_civil 2019 2 1 0 5); None]);
        ("passenger_count", Int64 [4; 1]);
        ("fare_amount", Float64 [-1; 8]%float);
        ("tip_amount", Float64 [0; 2]%float)]%string |}.

Definition sample_whole : DataFrame :=
  {| index := [0; 1; 2; 3; 0; 1];
     columns :=
       [("VendorID", Int64 [1; 2; 2; 1; 2; 2]);
        ("tpep_pickup_datetime",
         Datetime64 [Some (Timestamp.of_civil 2019 1 7 13 45);
                     Some (Timestamp.of_civil 2019 1 8 9 30);
                     Some (Timestamp.of_civil 2019 1 9 23 59);
                     None;
                     Some (Timestamp.of_civil 2019 2 1 0 5);
                     None]);
        ("passenger_count", Int64 [1; 2; 1; 3; 4; 1]);
        ("fare_amount", Float64 [10; 0; -3; 5; -1; 8]%float);
        ("tip_amount",
         Float64 [2%float; 1%float; 0%float; Num.NaN; 0%float; 2%float])
       ]%string |}.

Definition sample_unpaid : DataFrame :=
  {| index := [4; 5; 6];
     columns :=
       [("tpep_pickup_datetime", Datetime64 [Some 0; None; Some 1]);
        ("passenger_count", Int64 [1; 1; 2]);
        ("tip_amount", Float64 [0; 1; 2]%float);
        ("fare_amount", Float64 [0%float; (-3)%float; Num.NaN])]%string |}.

(** * Proofs *)

(** ** Examples *)

Example weekday_2019_01_07 :
  Timestamp.weekday (Timestamp.of_civil 2019 1 7 13 45) = 0
  /\ Timestamp.weekofyear (Timestamp.of_civil 2019 1 7 13 45) = 2
  /\ Timestamp.weekofyear (Timestamp.of_civil 2018 12 31 0 0) = 1
  /\ Timestamp.weekofyear (Timestamp.of_civil 2021 1 3 23 59) = 53
  /\ Timestamp.weekofyear (Timestamp.of_civil 2016 1 1 0 0) = 53
  /\ Timestamp.weekofyear (Timestamp.of_civil 2019 12 30 0 0) = 1.
Proof. vm_compute. repeat split. Qed.

Example float_of_int_samples :
  Num.float_of_int 3 = 3%float /\ Num.float_of_int (-1) = (-1)%float
  /\ Num.float_of_int (2 ^ 63 - 1) = 0x1p63%float
  /\ (2 / 10 = 0.2)%float.
Proof. vm_compute. repeat split. Qed.

Example prep_df_example :
  prep_df_result {[ 7%nat := one_row_table (Some (Timestamp.of_civil 2019 1 7 13 45))
                                 1 2 10 ]} 7
  = Some {| index := [0];
            columns := [("pickup_weekday", Float64 [0%float]);
                        ("pickup_weekofyear", Float64 [2%float]);
                        ("pickup_hour", Float64 [13%float]);
                        ("pickup_week_hour", Float64 [13%float]);
                        ("pickup_minute", Float64 [45%float]);
                        ("passenger_count", Float64 [1%float]);
                        ("tip_fraction", Float64 [0.2%float])]%string |}.
Proof. vm_compute. reflexivity. Qed.

(** A table without a tip column, and one whose pickup column holds
    numbers: selecting the raw columns raises KeyError, the [.dt] accessor
    AttributeError. *)
Example prep_df_raises :
  (prep_df 7 {[ 7%nat := {| index := [0];
                            columns := [("tpep_pickup_datetime", Datetime64 [Some 0]);
                                        ("passenger_count", Int64 [1]);
                                        ("fare_amount", Float64 [4%float])]%string |} ]}).2
  = Raise (KeyError "tip_amount")
  /\ (prep_df 7 {[ 7%nat := {| index := [0];
                              columns := [("tpep_pickup_datetime", Int64 [5]);
                                          ("passenger_count", Int64 [1]);
                                          ("tip_amount", Int64 [1]);
                                          ("fare_amount", Int64 [4])]%string |} ]}).2
     = Raise AttributeError.
Proof. vm_compute. split; reflexivity. Qed.

(** Without a fare column the attribute access of the first statement
    raises AttributeError and the store stays as it was. *)
Example prep_df_missing_fare :
  prep_df 7 {[ 7%nat := {| index := [0];
                           columns := [("tip_amount", Float64 [1%float])]%string |} ]}
  = ({[ 7%nat := {| index := [0];
                    columns := [("tip_amount", Float64 [1%float])]%string |} ]},
     Raise AttributeError).
Proof. vm_compute. reflexivity. Qed.

(** int64 fares and tips divide as floats. *)
Example prep_df_int_columns :
  (d ← prep_df_result
         {[ 7%nat := {| index := [5; 6];
                        columns := [("tpep_pickup_datetime",
                                     Datetime64 [Some 0; Some (-1)]);
                                    ("passenger_count", Int64 [1; 2]);
                                    ("tip_amount", Int64 [1; 3]);
                                    ("fare_amount", Int64 [4; -2])]%string |} ]} 7;
   Some (index d, frame.lookup_col (columns d) "tip_fraction",
         frame.lookup_col (columns d) "pickup_weekday"))
  = Some ([5], Some (Float64 [0.25%float]), Some (Float64 [3%float])).
Proof. vm_compute. reflexivity. Qed.

(** ** Runs and the store *)

Section runs.

Implicit Types (h : gmap nat DataFrame) (d : DataFrame) (l : nat).

Lemma fresh_unused h : h !! fresh (dom h) = None.
Proof. apply not_elem_of_dom, is_fresh. Qed.

Lemma preserves_refl h : preserves h h.
Proof. intros l d H. exact H. Qed.

Lemma preserves_trans h1 h2 h3 :
  preserves h1 h2 -> preserves h2 h3 -> preserves h1 h3.
Proof. intros H12 H23 l d H. apply H23, H12, H. Qed.

Lemma preserves_unused h h' l :
  preserves h h' -> h' !! l = None -> h !! l = None.
Proof.
  intros Hp Hn. destruct (h !! l) as [d|] eqn:E; [|reflexivity].
  apply Hp in E. congruence.
Qed.

Lemma preserves_alloc h l d : h !! l = None -> preserves h (<[l := d]> h).
Proof.
  intros Hn l' d' H. rewrite lookup_insert_ne; [exact H|]. congruence.
Qed.

Lemma new_from_builds_pure l f : builds_pure l (new_from l f) f.
Proof.
  intros h d H. unfold new_from. rewrite H.
  destruct (f d) as [d'|e].
  - exists (<[fresh (dom h) := d']> h). split.
    + apply preserves_alloc, fresh_unused.
    + exists (fresh (dom h)).
      split; [reflexivity|]. split; [apply fresh_unused|].
      apply lookup_insert_eq.
  - exists h. split; [apply preserves_refl | reflexivity].
Qed.

Lemma update_updates l f : updates l (update l f) f.
Proof.
  intros h d H. unfold update. rewrite H.
  destruct (f d) as [d'|e].
  - exists (<[l := d']> h). split.
    + intros l' Hne. apply lookup_insert_ne. congruence.
    + split; [reflexivity | apply lookup_insert_eq].
  - exists h. split; [intros l' _; reflexivity | reflexivity].
Qed.

Lemma updates_read {A} l (g : DataFrame -> result A) k f :
  (forall a, updates l (k a) (f a)) ->
  updates l (let* a := read l g in k a) (fun d => let! a := g d in f a d).
Proof.
  intros Hk h d H. unfold bind, read. rewrite H.
  destruct (g d) as [a|e]; simpl.
  - apply (Hk a h d H).
  - exists h. split; [intros l' _; reflexivity | reflexivity].
Qed.

Lemma updates_lift {A} l (r : result A) k f :
  (forall a, updates l (k a) (f a)) ->
  updates l (let* a := lift r in k a) (fun d => let! a := r in f a d).
Proof.
  intros Hk h d H. unfold bind, lift.
  destruct r as [a|e]; simpl.
  - apply (Hk a h d H).
  - exists h. split; [intros l' _; reflexivity | reflexivity].
Qed.

Lemma builds_pure_read {A} l (g : DataFrame -> result A) k f :
  (forall a, builds_pure l (k a) (f a)) ->
  builds_pure l (let* a := read l g in k a) (fun d => let! a := g d in f a d).
Proof.
  intros Hk h d H. unfold bind, read. rewrite H.
  destruct (g d) as [a|e]; simpl.
  - apply (Hk a h d H).
  - exists h. split; [apply preserves_refl | reflexivity].
Qed.

Lemma builds_pure_lift {A} l (r : result A) k f :
  (forall a, builds_pure l (k a) (f a)) ->
  builds_pure l (let* a := lift r in k a) (fun d => let! a := r in f a d).
Proof.
  intros Hk h d H. unfold bind, lift.
  destruct r as [a|e]; simpl.
  - apply (Hk a h d H).
  - exists h. split; [apply preserves_refl | reflexivity].
Qed.

Lemma builds_pure_bind l m k f g :
  builds_pure l m f ->
  (forall l', builds_pure l' (k l') g) ->
  builds_pure l (let* x := m in k x) (fun d => let! d1 := f d in g d1).
Proof.
  intros Hm Hk h d H. unfold bind.
  destruct (Hm h d H) as (h1 & Hp1 & Hf).
  destruct (f d) as [d1|e]; simpl.
  - destruct Hf as (l1 & -> & Hn1 & Hl1).
    destruct (Hk l1 h1 d1 Hl1) as (h2 & Hp2 & Hg).
    exists h2. split; [eapply preserves_trans; eassumption|].
    destruct (g d1) as [d2|e].
    + destruct Hg as (l2 & -> & Hn2 & Hl2).
      exists l2. split; [reflexivity|]. split; [|exact Hl2].
      eapply preserves_unused; eassumption.
    + rewrite Hg. reflexivity.
  - rewrite Hf. exists h1. split; [exact Hp1 | reflexivity].
Qed.

Lemma builds_of_pure l m f : builds_pure l m f -> builds l m f.
Proof.
  intros Hm h d H. destruct (Hm h d H) as (h' & Hp & Hf).
  exists h'. split; [|exact Hf]. intros l' x _. apply Hp.
Qed.

Lemma builds_after_update l m k f g :
  updates l m f ->
  builds l k g ->
  builds l (let* _ := m in k) (fun d => let! d1 := f d in g d1).
Proof.
  intros Hm Hk h d H. unfold bind.
  destruct (Hm h d H) as (h1 & Hmod & Hf).
  destruct (f d) as [d1|e]; simpl.
  - destruct Hf as [-> Hl1].
    destruct (Hk h1 d1 Hl1) as (h2 & Hp2 & Hg).
    exists h2. split.
    + intros l' x Hne Hx. apply Hp2; [exact Hne|]. rewrite Hmod; assumption.
    + destruct (g d1) as [d2|e].
      * destruct Hg as (l2 & -> & Hn2 & Hl2).
        exists l2. split; [reflexivity|]. split; [|exact Hl2].
        destruct (decide (l2 = l)) as [->|Hne]; [congruence|].
        rewrite <- Hn2. symmetry. apply Hmod, Hne.
      * exact Hg.
  - rewrite Hf. exists h1. split; [|reflexivity].
    intros l' x Hne Hx. rewrite Hmod; assumption.
Qed.

Lemma builds_pure_then_builds l m k f g :
  builds_pure l m f ->
  (forall l', builds l' (k l') g) ->
  builds_pure l (let* x := m in k x) (fun d => let! d1 := f d in g d1).
Proof.
  intros Hm Hk h d H. unfold bind.
  destruct (Hm h d H) as (h1 & Hp1 & Hf).
  destruct (f d) as [d1|e]; simpl.
  - destruct Hf as (l1 & -> & Hn1 & Hl1).
    destruct (Hk l1 h1 d1 Hl1) as (h2 & Hp2 & Hg).
    assert (Hp : preserves h h2).
    { intros l' x Hx. apply Hp2; [congruence | apply Hp1, Hx]. }
    exists h2. split; [exact Hp|].
    destruct (g d1) as [d2|e].
    + destruct Hg as (l2 & -> & Hn2 & Hl2).
      exists l2. split; [reflexivity|]. split; [|exact Hl2].
      apply (preserves_unused h h1 l2 Hp1 Hn2).
    + exact Hg.
  - rewrite Hf. exists h1. split; [exact Hp1 | reflexivity].
Qed.

End runs.

(** ** [prep_df] on the store refines the derivation on values *)

Section refinement.

Lemma set_label_updates df : updates df (set_label df) value.set_label.
Proof.
  unfold set_label, value.set_label, pd.getattr, pd.setitem.
  apply updates_read; intros tip.
  apply updates_read; intros fare.
  apply updates_lift; intros fraction.
  apply update_updates.
Qed.

Lemma set_dt_field_updates df c field :
  updates df (set_dt_field df c field) (value.set_dt_field c field).
Proof.
  unfold set_dt_field, value.set_dt_field, pd.getattr, pd.setitem.
  apply updates_read; intros ts.
  apply updates_lift; intros v.
  apply update_updates.
Qed.

Lemma set_week_hour_updates df :
  updates df (set_week_hour df) value.set_week_hour.
Proof.
  unfold set_week_hour, value.set_week_hour, pd.getattr, pd.setitem.
  apply updates_read; intros wd.
  apply updates_lift; intros wd24.
  apply updates_read; intros hr.
  apply updates_lift; intros wh.
  apply update_updates.
Qed.

Lemma select_rows_builds taxi_df :
  builds_pure taxi_df (select_rows taxi_df) value.select_rows.
Proof.
  unfold select_rows, value.select_rows, pd.getattr, pd.getitem_mask,
    pd.getitem_cols, pd.copy.
  apply builds_pure_read; intros fare.
  apply builds_pure_lift; intros mask.
  apply builds_pure_bind; [apply new_from_builds_pure|]; intros positive.
  apply builds_pure_bind; [apply new_from_builds_pure|]; intros raw.
  apply new_from_builds_pure.
Qed.

Lemma finish_builds df : builds_pure df (finish df) value.finish.
Proof.
  unfold finish, value.finish, pd.getitem_cols, pd.astype_float, pd.fillna.
  apply builds_pure_bind; [apply new_from_builds_pure|]; intros chosen.
  apply builds_pure_bind; [apply new_from_builds_pure|]; intros floats.
  apply new_from_builds_pure.
Qed.

Lemma derive_builds df : builds df (derive df) value.derive.
Proof.
  unfold derive, value.derive.
  apply builds_after_update; [apply set_label_updates|].
  apply builds_after_update; [apply set_dt_field_updates|].
  apply builds_after_update; [apply set_dt_field_updates|].
  apply builds_after_update; [apply set_dt_field_updates|].
  apply builds_after_update; [apply set_week_hour_updates|].
  apply builds_after_update; [apply set_dt_field_updates|].
  apply builds_of_pure, finish_builds.
Qed.

(** A run of [prep_df] leaves every object of the store as it was, and
    returns a new object holding what the derivation on values computes
    from the input table, or raises what that raises. *)
Lemma prep_df_refines taxi_df :
  builds_pure taxi_df (prep_df taxi_df) value.prep_df.
Proof.
  unfold prep_df, value.prep_df.
  apply builds_pure_then_builds; [apply select_rows_builds|].
  intros df. apply derive_builds.
Qed.

Lemma prep_df_dangling (h : gmap nat DataFrame) taxi_df :
  h !! taxi_df = None -> prep_df taxi_df h = (h, Raise ReferenceError).
Proof.
  intros H. unfold prep_df, select_rows, bind, pd.getattr, read.
  rewrite H. reflexivity.
Qed.

Lemma prep_df_result_value (h : gmap nat DataFrame) taxi_df taxi :
  h !! taxi_df = Some taxi ->
  prep_df_result h taxi_df =
    match value.prep_df taxi with Ok out => Some out | Raise _ => None end.
Proof.
  intros H. unfold prep_df_result.
  destruct (prep_df_refines taxi_df h taxi H) as (h' & _ & Hf).
  destruct (value.prep_df taxi) as [out|e].
  - destruct Hf as (l & -> & _ & Hl). exact Hl.
  - rewrite Hf. reflexivity.
Qed.

End refinement.

(** ** Masks, zips and columns *)

Section columns.

Context {A B C : Type}.

Lemma mask_filter_map (f : A -> B) m xs :
  mask_filter m (map f xs) = map f (mask_filter m xs).
Proof.
  revert xs. induction m as [|b m IH]; intros [|x xs]; simpl; try reflexivity.
  destruct b; simpl; rewrite IH; reflexivity.
Qed.

Lemma mask_filter_length m (xs : list A) :
  length m = length xs ->
  length (mask_filter m xs) = length (mask_positions m).
Proof.
  revert xs. induction m as [|b m IH]; intros [|x xs] H; simpl in *;
    try reflexivity; try discriminate.
  injection H as H. specialize (IH xs H).
  destruct b; simpl; rewrite ?length_map; rewrite IH; reflexivity.
Qed.

(** The entry at position [k] of a masked column is the entry of the
    column at the [k]-th kept position. *)
Lemma mask_filter_lookup m (xs : list A) k :
  length m = length xs ->
  mask_filter m xs !! k = mask_positions m !! k ≫= (fun i => xs !! i).
Proof.
  revert xs k. induction m as [|b m IH]; intros [|x xs] k H; simpl in *;
    try reflexivity; try discriminate.
  injection H as H.
  assert (Hs : forall j, map S (mask_positions m) !! j ≫= (fun i => (x :: xs) !! i)
                         = mask_positions m !! j ≫= (fun i => xs !! i)).
  { intros j. change (map S (mask_positions m)) with (S <$> mask_positions m).
    rewrite list_lookup_fmap.
    destruct (mask_positions m !! j); reflexivity. }
  destruct b.
  - destruct k as [|k]; simpl; [reflexivity|].
    rewrite IH by exact H. symmetry. apply Hs.
  - rewrite IH by exact H. symmetry. apply Hs.
Qed.

Lemma zip_exact_zip_with (f : A -> B -> C) xs ys :
  length xs = length ys -> zip_exact f xs ys = Ok (zip_with f xs ys).
Proof.
  revert ys. induction xs as [|x xs IH]; intros [|y ys] H; simpl in *;
    try reflexivity; try discriminate.
  injection H as H. rewrite (IH ys H). reflexivity.
Qed.

Lemma zip_with_map_same {D} (f : A -> B -> C) (g : D -> A) (k : D -> B) l :
  zip_with f (map g l) (map k l) = map (fun x => f (g x) (k x)) l.
Proof. induction l as [|x l IH]; simpl; [reflexivity | rewrite IH; reflexivity]. Qed.

End columns.

Lemma filter_map_comm {A B} (f : B -> bool) (g : A -> B) l :
  List.filter f (map g l) = map g (List.filter (fun x => f (g x)) l).
Proof.
  induction l as [|x l IH]; [reflexivity|].
  cbn [List.filter map]. destruct (f (g x)); cbn [map]; rewrite IH; reflexivity.
Qed.

Lemma mask_positions_filter m :
  mask_positions m = List.filter (fun i => nth i m false) (seq 0 (length m)).
Proof.
  induction m as [|b m IH]; [reflexivity|].
  cbn [mask_positions length seq List.filter nth].
  rewrite <- seq_shift, filter_map_comm.
  cbn [nth]. rewrite <- IH. destruct b; reflexivity.
Qed.

Section series_facts.

Lemma filter_len m s :
  length m = series.len s ->
  series.len (series.filter m s) = length (mask_positions m).
Proof. destruct s; simpl; apply mask_filter_length. Qed.

Lemma to_float_filter m s xs :
  series.to_float s = Ok xs ->
  series.to_float (series.filter m s) = Ok (mask_filter m xs).
Proof.
  destruct s; simpl; intros H; try discriminate; injection H as <-.
  - reflexivity.
  - rewrite mask_filter_map. reflexivity.
Qed.

Lemma to_float_len s xs : series.to_float s = Ok xs -> length xs = series.len s.
Proof.
  destruct s; simpl; intros H; try discriminate; injection H as <-.
  - reflexivity.
  - apply length_map.
Qed.

Lemma numeric_to_float s : numeric s -> exists xs, series.to_float s = Ok xs.
Proof. destruct s; simpl; intros H; try contradiction; eexists; reflexivity. Qed.

Lemma numeric_gt0 s : numeric s -> exists m, series.gt0 s = Ok m.
Proof. destruct s; simpl; intros H; try contradiction; eexists; reflexivity. Qed.

Lemma gt0_len s m : series.gt0 s = Ok m -> length m = series.len s.
Proof.
  destruct s; simpl; intros H; try discriminate; injection H as <-;
    apply length_map.
Qed.

Lemma lookup_col_masked m cs c :
  frame.lookup_col (map (fun x => (x.1, series.filter m x.2)) cs) c
  = series.filter m <$> frame.lookup_col cs c.
Proof.
  induction cs as [|[c' s] cs IH]; simpl; [reflexivity|].
  destruct (String.eqb c' c); [reflexivity | exact IH].
Qed.

Lemma lookup_col_len (d : DataFrame) c s :
  Forall (fun cs => series.len cs.2 = length (index d)) (columns d) ->
  frame.lookup_col (columns d) c = Some s ->
  series.len s = length (index d).
Proof.
  generalize (length (index d)) as n. intros n.
  induction 1 as [|[c' s'] cs Hx _ IH]; simpl; [discriminate|].
  destruct (String.eqb c' c); [|exact IH].
  intros H. injection H as <-. exact Hx.
Qed.

End series_facts.

(** ** Calendar fields and float64 arithmetic *)

Section float_facts.

Lemma weekday_range t : 0 <= Timestamp.weekday t < 7.
Proof. unfold Timestamp.weekday. apply Z.mod_pos_bound. lia. Qed.

Lemma hour_range t : 0 <= Timestamp.hour t < 24.
Proof. unfold Timestamp.hour. apply Z.mod_pos_bound. lia. Qed.

Lemma minute_range t : 0 <= Timestamp.minute t < 60.
Proof. unfold Timestamp.minute. apply Z.mod_pos_bound. lia. Qed.

Lemma wrap64_small z : - 2 ^ 63 <= z < 2 ^ 63 -> Num.wrap64 z = z.
Proof. intros H. unfold Num.wrap64. rewrite Z.mod_small; lia. Qed.

Lemma week_hour_int wd hr :
  0 <= wd < 7 -> 0 <= hr < 24 ->
  Num.wrap64 (Num.wrap64 (wd * 24) + hr) = wd * 24 + hr.
Proof.
  intros Hwd Hhr. rewrite (wrap64_small (wd * 24)) by lia.
  apply wrap64_small. lia.
Qed.

Lemma small_cases n z :
  0 <= z < Z.of_nat n -> In z (map Z.of_nat (seq 0 n)).
Proof.
  intros H. apply in_map_iff. exists (Z.to_nat z).
  split; [lia|]. apply in_seq. lia.
Qed.

(** The week-hour sum is exact in float64 arithmetic. *)
Lemma week_hour_float wd hr :
  0 <= wd < 7 -> 0 <= hr < 24 ->
  (Num.float_of_int wd * Num.float_of_int 24 + Num.float_of_int hr)%float
  = Num.float_of_int (wd * 24 + hr).
Proof.
  intros Hwd Hhr.
  apply (small_cases 7) in Hwd. apply (small_cases 24) in Hhr.
  cbn [seq map] in Hwd, Hhr.
  repeat (destruct Hwd as [<-|Hwd]; [|]); try contradiction;
    repeat (destruct Hhr as [<-|Hhr]; [|]); try contradiction;
    vm_compute; reflexivity.
Qed.

Lemma week_hour_of_cells wd hr :
  0 <= wd < 7 -> 0 <= hr < 24 ->
  row.fill (Num.float_of_int (wd * 24 + hr))
  = (row.fill (Num.float_of_int wd) * 24 + row.fill (Num.float_of_int hr))%float.
Proof.
  intros Hwd Hhr.
  apply (small_cases 7) in Hwd. apply (small_cases 24) in Hhr.
  cbn [seq map] in Hwd, Hhr.
  repeat (destruct Hwd as [<-|Hwd]; [|]); try contradiction;
    repeat (destruct Hhr as [<-|Hhr]; [|]); try contradiction;
    vm_compute; reflexivity.
Qed.

Lemma fill_not_nan x : Num.isna (row.fill x) = false.
Proof.
  unfold row.fill. destruct (Num.isna x) eqn:E; [reflexivity | exact E].
Qed.

End float_facts.

(** ** The derivation on a well-formed taxi table *)

Section derivation.

Lemma truediv_ok a b xs ys :
  series.to_float a = Ok xs -> series.to_float b = Ok ys ->
  length xs = length ys ->
  series.truediv a b = Ok (Float64 (zip_with PrimFloat.div xs ys)).
Proof.
  intros Ha Hb Hlen. unfold series.truediv. rewrite Ha, Hb. cbn [rbind].
  rewrite zip_exact_zip_with by exact Hlen. reflexivity.
Qed.

Lemma setitem_ok c s d :
  series.len s = length (index d) ->
  frame.setitem c s d
  = Ok {| index := index d; columns := frame.set_col (columns d) c s |}.
Proof. intros H. unfold frame.setitem. rewrite H, Nat.eqb_refl. reflexivity. Qed.

Lemma mapM_present (ts : list (option Z)) present :
  mapM (fun o : option Z => o) ts = Some present -> ts = map Some present.
Proof.
  intros H. apply mapM_Some_1 in H.
  induction H as [|o t ts' present' Ho _ IH]; [reflexivity|].
  cbn [map]. rewrite Ho, IH. reflexivity.
Qed.

(** The two dtypes a calendar field can have. *)
Lemma dt_field_cases (ts : list (option Z)) :
  (exists present, ts = map Some present /\
     forall f, series.dt_field f (Datetime64 ts) = Ok (Int64 (map f present)))
  \/ (forall f, series.dt_field f (Datetime64 ts)
                = Ok (Float64 (map (fun o : option Z =>
                                      match o with
                                      | Some t => Num.float_of_int (f t)
                                      | None => Num.NaN
                                      end) ts))).
Proof.
  unfold series.dt_field.
  destruct (mapM (fun o : option Z => o) ts) as [present|] eqn:E.
  - left. exists present. split; [apply mapM_present, E | reflexivity].
  - right. reflexivity.
Qed.

Variables (idx : list Z) (ts : list (option Z)) (pc tip fare : Series).
Variables (pcf tipf faref : list float).

Hypothesis Hts : length ts = length idx.
Hypothesis Hpc : series.to_float pc = Ok pcf.
Hypothesis Htip : series.to_float tip = Ok tipf.
Hypothesis Hfare : series.to_float fare = Ok faref.
Hypothesis Hpc_len : series.len pc = length idx.
Hypothesis Htip_len : series.len tip = length idx.
Hypothesis Hfare_len : series.len fare = length idx.

Let raw : DataFrame :=
  {| index := idx;
     columns := [("tpep_pickup_datetime", Datetime64 ts);
                 ("passenger_count", pc);
                 ("tip_amount", tip);
                 ("fare_amount", fare)]%string |}.

Ltac lookup_step :=
  unfold frame.col, frame.attr;
  cbn [columns index frame.lookup_col frame.set_col String.eqb Ascii.eqb
       Bool.eqb label rbind].

Ltac setitem_step :=
  rewrite setitem_ok
    by (cbn [series.len index]; rewrite ?length_zip_with, ?length_map; lia);
  cbn [rbind].

Lemma derive_ok : value.derive raw = Ok (derived idx ts pcf tipf faref).
Proof.
  pose proof (to_float_len _ _ Hpc) as Lpc.
  pose proof (to_float_len _ _ Htip) as Ltip.
  pose proof (to_float_len _ _ Hfare) as Lfare.
  unfold value.derive, raw.
  unfold value.set_label. lookup_step.
  rewrite (truediv_ok _ _ _ _ Htip Hfare) by congruence. cbn [rbind].
  setitem_step. lookup_step.
  unfold value.set_dt_field, value.set_week_hour.
  destruct (dt_field_cases ts) as [(present & Epresent & Hdt) | Hdt].
  - assert (Hlen : length present = length idx).
    { rewrite <- Hts, Epresent, length_map. reflexivity. }
    repeat (lookup_step; rewrite ?Hdt; cbn [rbind series.mul_int series.add];
            rewrite ?zip_exact_zip_with by (rewrite !length_map; reflexivity);
            try setitem_step).
    unfold value.finish, frame.getitem_cols.
    cbn [features app rmapM]. lookup_step.
    unfold frame.astype_float.
    cbn [columns index rmapM fst snd]. unfold series.astype_float.
    rewrite Hpc. cbn [series.to_float rbind].
    unfold frame.fillna.
    cbn [columns index rmapM fst snd series.fillna rbind].
    unfold derived, label. rewrite Epresent, !map_map, zip_with_map_same, !map_map.
    do 6 f_equal. do 2 f_equal.
    apply map_ext. intros t. cbn [week_hour_cell].
    rewrite week_hour_int by (apply weekday_range || apply hour_range).
    reflexivity.
  - repeat (lookup_step; rewrite ?Hdt; cbn [rbind series.mul_int series.add series.to_float];
            rewrite ?zip_exact_zip_with by (rewrite !length_map; reflexivity);
            try setitem_step).
    unfold value.finish, frame.getitem_cols.
    cbn [features app rmapM]. lookup_step.
    unfold frame.astype_float.
    cbn [columns index rmapM fst snd]. unfold series.astype_float.
    rewrite Hpc. cbn [series.to_float rbind].
    unfold frame.fillna.
    cbn [columns index rmapM fst snd series.fillna rbind].
    assert (Hcal : forall f : Z -> Z,
               map (fun x : float => if Num.isna x then (-1)%float else x)
                   (map (fun o : option Z =>
                           match o with
                           | Some t => Num.float_of_int (f t)
                           | None => Num.NaN
                           end) ts)
               = map (calendar_cell f) ts).
    { intros f. rewrite map_map. apply map_ext. intros [t|]; reflexivity. }
    rewrite !Hcal. rewrite !map_map, zip_with_map_same, map_map.
    unfold derived, label. do 6 f_equal. do 2 f_equal.
    apply map_ext. intros [t|]; cbn [week_hour_cell]; [|reflexivity].
    rewrite week_hour_float by (apply weekday_range || apply hour_range).
    reflexivity.
Qed.

End derivation.

Section on_taxi_table.

Variables (taxi : DataFrame) (ts : list (option Z)) (pc tip fare : Series).

Hypothesis Hrect :
  Forall (fun cs => series.len cs.2 = length (index taxi)) (columns taxi).
Hypothesis Hts :
  frame.lookup_col (columns taxi) "tpep_pickup_datetime" = Some (Datetime64 ts).
Hypothesis Hpc : frame.lookup_col (columns taxi) "passenger_count" = Some pc.
Hypothesis Htip : frame.lookup_col (columns taxi) "tip_amount" = Some tip.
Hypothesis Hfare : frame.lookup_col (columns taxi) "fare_amount" = Some fare.

Lemma select_rows_ok m :
  series.gt0 fare = Ok m ->
  value.select_rows taxi
  = Ok {| index := mask_filter m (index taxi);
          columns := [("tpep_pickup_datetime", Datetime64 (mask_filter m ts));
                      ("passenger_count", series.filter m pc);
                      ("tip_amount", series.filter m tip);
                      ("fare_amount", series.filter m fare)]%string |}.
Proof.
  intros Hm.
  assert (Hlen : length m = length (index taxi)).
  { rewrite (gt0_len _ _ Hm). eapply lookup_col_len; eassumption. }
  unfold value.select_rows, frame.attr. rewrite Hfare. cbn [rbind].
  rewrite Hm. cbn [rbind].
  unfold frame.getitem_mask. rewrite Hlen, Nat.eqb_refl. cbn [rbind].
  unfold frame.getitem_cols, frame.col.
  cbn [raw_features rmapM columns index].
  rewrite !lookup_col_masked, Hts, Hpc, Htip, Hfare.
  reflexivity.
Qed.

(** On a taxi table the derivation returns, and returns [derived] of the
    kept rows. *)
Lemma prep_df_value_ok m pcf tipf faref :
  series.gt0 fare = Ok m ->
  series.to_float pc = Ok pcf ->
  series.to_float tip = Ok tipf ->
  series.to_float fare = Ok faref ->
  value.prep_df taxi
  = Ok (derived (mask_filter m (index taxi)) (mask_filter m ts)
          (mask_filter m pcf) (mask_filter m tipf) (mask_filter m faref)).
Proof.
  intros Hm Fpc Ftip Ffare.
  assert (Hlen : length m = length (index taxi)).
  { rewrite (gt0_len _ _ Hm). eapply lookup_col_len; eassumption. }
  pose proof (lookup_col_len taxi _ _ Hrect Hts) as Lts.
  pose proof (lookup_col_len taxi _ _ Hrect Hpc) as Lpc.
  pose proof (lookup_col_len taxi _ _ Hrect Htip) as Ltip.
  pose proof (lookup_col_len taxi _ _ Hrect Hfare) as Lfare.
  cbn [series.len] in Lts.
  unfold value.prep_df. rewrite (select_rows_ok m Hm). cbn [rbind].
  apply derive_ok.
  - rewrite !mask_filter_length; congruence.
  - apply to_float_filter, Fpc.
  - apply to_float_filter, Ftip.
  - apply to_float_filter, Ffare.
  - rewrite filter_len, mask_filter_length; congruence.
  - rewrite filter_len, mask_filter_length; congruence.
  - rewrite filter_len, mask_filter_length; congruence.
Qed.

End on_taxi_table.

(** ** Rows of the input and of the output *)

Section rows.

Lemma nth_map_lookup {A} (f : A -> bool) (xs : list A) i :
  nth i (map f xs) false = match xs !! i with Some x => f x | None => false end.
Proof.
  revert i. induction xs as [|x xs IH]; intros [|i]; simpl; try reflexivity.
  apply IH.
Qed.

Lemma gt0_nth s m i :
  series.gt0 s = Ok m ->
  nth i m false = match series_nth s i with Some v => row.gt0 v | None => false end.
Proof.
  destruct s as [xs|xs|xs]; simpl; intros H; try discriminate;
    injection H as <-; rewrite nth_map_lookup;
    destruct (xs !! i); reflexivity.
Qed.

Lemma to_float_lookup s xs i :
  series.to_float s = Ok xs -> xs !! i = series_nth s i ≫= row.to_float.
Proof.
  destruct s as [ys|ys|ys]; simpl; intros H; try discriminate;
    injection H as <-.
  - destruct (ys !! i); reflexivity.
  - change (map Num.float_of_int ys) with (Num.float_of_int <$> ys).
    rewrite list_lookup_fmap. destruct (ys !! i); reflexivity.
Qed.

Lemma positive_rows_mask (taxi : DataFrame) fare m :
  Forall (fun cs => series.len cs.2 = length (index taxi)) (columns taxi) ->
  frame.lookup_col (columns taxi) "fare_amount" = Some fare ->
  series.gt0 fare = Ok m ->
  positive_rows taxi = mask_positions m.
Proof.
  intros Hrect Hfare Hm.
  rewrite mask_positions_filter. unfold positive_rows.
  rewrite (gt0_len _ _ Hm), (lookup_col_len taxi _ _ Hrect Hfare).
  apply filter_ext. intros i.
  rewrite (gt0_nth _ _ i Hm). unfold fare_positive, cell.
  rewrite Hfare. reflexivity.
Qed.

Lemma positive_rows_lt taxi k i :
  positive_rows taxi !! k = Some i -> (i < length (index taxi))%nat.
Proof.
  intros H. apply list_elem_of_lookup_2, list_elem_of_In in H.
  unfold positive_rows in H. apply filter_In in H. destruct H as [H _].
  apply in_seq in H. lia.
Qed.

Lemma positive_rows_fare taxi i :
  In i (positive_rows taxi) <->
  exists v, cell taxi "fare_amount" i = Some v /\ row.gt0 v = true
            /\ (i < length (index taxi))%nat.
Proof.
  unfold positive_rows. rewrite filter_In, in_seq. unfold fare_positive.
  split.
  - intros [Hi Hv]. destruct (cell taxi "fare_amount" i) as [v|]; [|discriminate].
    exists v. repeat split; [exact Hv | lia].
  - intros (v & -> & Hv & Hi). split; [lia | exact Hv].
Qed.

End rows.

Section rows_of_the_output.

Lemma series_nth_is_Some s i :
  (i < series.len s)%nat -> exists v, series_nth s i = Some v.
Proof.
  destruct s as [xs|xs|xs]; simpl; intros H;
    apply lookup_lt_is_Some_2 in H; destruct H as [x ->]; eexists; reflexivity.
Qed.

Lemma calendar_cell_not_nan f t : Num.isna (calendar_cell f t) = false.
Proof. destruct t; [apply fill_not_nan | reflexivity]. Qed.

Lemma week_hour_cell_not_nan t : Num.isna (week_hour_cell t) = false.
Proof. destruct t; [apply fill_not_nan | reflexivity]. Qed.

Lemma Forall_map_always {A B} (P : B -> Prop) (f : A -> B) l :
  (forall x, P (f x)) -> Forall P (map f l).
Proof. intros H. induction l; simpl; constructor; auto. Qed.

Variables (h : gmap nat DataFrame) (taxi_df : nat) (taxi : DataFrame).
Hypothesis Hin : h !! taxi_df = Some taxi.
Hypothesis Htable : taxi_table taxi.

(** The output of [prep_df] on a taxi table, row by row: the [k]-th
    output row is [derive_row] of the [k]-th input row with a positive
    fare. *)
Lemma prep_df_rows :
  exists out,
    prep_df_result h taxi_df = Some out
    /\ map fst (columns out) = features ++ [label]
    /\ length (index out) = length (positive_rows taxi)
    /\ Forall (fun cs => exists xs, cs.2 = Float64 xs
                 /\ length xs = length (index out)
                 /\ Forall (fun x => Num.isna x = false) xs) (columns out)
    /\ forall k i, positive_rows taxi !! k = Some i ->
         exists r f, trip_at taxi i = Some r
                     /\ derive_row r = Some f
                     /\ features_at out k = Some f.
Proof.
  destruct Htable as [Hrect [ts Hts] (pc & Hpc & Npc) (tip & Htip & Ntip)
                        (fare & Hfare & Nfare)].
  destruct (numeric_gt0 _ Nfare) as [m Hm].
  destruct (numeric_to_float _ Npc) as [pcf Fpc].
  destruct (numeric_to_float _ Ntip) as [tipf Ftip].
  destruct (numeric_to_float _ Nfare) as [faref Ffare].
  pose proof (lookup_col_len taxi _ _ Hrect Hts) as Lts.
  pose proof (lookup_col_len taxi _ _ Hrect Hpc) as Lpc.
  pose proof (lookup_col_len taxi _ _ Hrect Htip) as Ltip.
  pose proof (lookup_col_len taxi _ _ Hrect Hfare) as Lfare.
  cbn [series.len] in Lts.
  pose proof (to_float_len _ _ Fpc) as Lpcf.
  pose proof (to_float_len _ _ Ftip) as Ltipf.
  pose proof (to_float_len _ _ Ffare) as Lfaref.
  assert (Lm : length m = length (index taxi)).
  { rewrite (gt0_len _ _ Hm). exact Lfare. }
  pose proof (positive_rows_mask taxi fare m Hrect Hfare Hm) as Hpos.
  eexists. split.
  { rewrite (prep_df_result_value h taxi_df taxi Hin).
    rewrite (prep_df_value_ok taxi ts pc tip fare Hrect Hts Hpc Htip Hfare
               m pcf tipf faref Hm Fpc Ftip Ffare).
    reflexivity. }
  split; [reflexivity|].
  split.
  { cbn [derived index]. rewrite Hpos. apply mask_filter_length. exact Lm. }
  split.
  { cbn [derived index columns].
    repeat (apply Forall_cons; split;
            [eexists; split; [reflexivity|]; split;
             [rewrite ?length_map, ?length_zip_with, !mask_filter_length; lia
             | apply Forall_map_always; intros x;
               first [apply calendar_cell_not_nan | apply week_hour_cell_not_nan
                     | apply fill_not_nan]]
            |]).
    apply Forall_nil_2. }
  intros k i Hk.
  pose proof (positive_rows_lt _ _ _ Hk) as Hi.
  rewrite Hpos in Hk.
  destruct (lookup_lt_is_Some_2 (index taxi) i Hi) as [lbl Hlbl].
  destruct (lookup_lt_is_Some_2 ts i ltac:(lia)) as [t Ht].
  destruct (series_nth_is_Some pc i ltac:(lia)) as [vpc Hvpc].
  destruct (series_nth_is_Some tip i ltac:(lia)) as [vtip Hvtip].
  destruct (series_nth_is_Some fare i ltac:(lia)) as [vfare Hvfare].
  destruct (lookup_lt_is_Some_2 pcf i ltac:(lia)) as [x Hx].
  destruct (lookup_lt_is_Some_2 tipf i ltac:(lia)) as [a Ha].
  destruct (lookup_lt_is_Some_2 faref i ltac:(lia)) as [b Hb].
  pose proof (to_float_lookup _ _ i Fpc) as Epc.
  pose proof (to_float_lookup _ _ i Ftip) as Etip.
  pose proof (to_float_lookup _ _ i Ffare) as Efare.
  rewrite Hx, Hvpc in Epc. rewrite Ha, Hvtip in Etip. rewrite Hb, Hvfare in Efare.
  cbn [mbind option_bind] in Epc, Etip, Efare.
  exists (mkTrip lbl t vpc vtip vfare). eexists.
  split.
  { unfold trip_at, pickup_cell, cell.
    rewrite Hlbl, Hts, Hpc, Htip, Hfare.
    cbn [mbind option_bind series_nth]. rewrite Ht, Hvpc, Hvtip, Hvfare.
    reflexivity. }
  split.
  { unfold derive_row. cbn [trip_passengers trip_tip trip_fare].
    rewrite <- Epc, <- Etip, <- Efare. reflexivity. }
  unfold features_at, float_cell, cell.
  cbn [derived index columns frame.lookup_col String.eqb Ascii.eqb Bool.eqb
       mbind option_bind series_nth].
  repeat match goal with
         | |- context [map ?f ?l] => change (map f l) with (f <$> l)
         end.
  rewrite !list_lookup_fmap, lookup_zip_with, !mask_filter_lookup by lia.
  rewrite Hk. cbn [mbind option_bind].
  rewrite Hlbl, Ht, Hx, Ha, Hb. reflexivity.
Qed.

End rows_of_the_output.

(** ** The claims of the specification *)

Section claims_columns.

Lemma rbind_ok {A B} (r : result A) (k : A -> result B) b :
  rbind r k = Ok b -> exists a, r = Ok a /\ k a = Ok b.
Proof. destruct r as [a|e]; simpl; [eauto | discriminate]. Qed.

Lemma getitem_cols_names names d out :
  frame.getitem_cols names d = Ok out -> map fst (columns out) = names.
Proof.
  unfold frame.getitem_cols. intros H.
  apply rbind_ok in H. destruct H as (cs & Hcs & H). injection H as <-.
  cbn [columns]. revert cs Hcs.
  induction names as [|c names IH]; intros cs Hcs; simpl in Hcs.
  - injection Hcs as <-. reflexivity.
  - apply rbind_ok in Hcs. destruct Hcs as (b & Hb & Hcs).
    apply rbind_ok in Hcs. destruct Hcs as (bs & Hbs & Hcs).
    injection Hcs as <-.
    apply rbind_ok in Hb. destruct Hb as (s & _ & Hb). injection Hb as <-.
    cbn [map fst]. rewrite (IH bs Hbs). reflexivity.
Qed.

Lemma map_columns_names (g : Series -> result Series)
  (cs cs' : list (string * Series)) :
  rmapM (fun x => let! s := g x.2 in Ok (x.1, s)) cs = Ok cs' ->
  map fst cs' = map fst cs.
Proof.
  revert cs'. induction cs as [|[c s] cs IH]; intros cs' H; simpl in H.
  - injection H as <-. reflexivity.
  - apply rbind_ok in H. destruct H as (b & Hb & H).
    apply rbind_ok in H. destruct H as (bs & Hbs & H).
    injection H as <-.
    apply rbind_ok in Hb. destruct Hb as (s' & _ & Hb). injection Hb as <-.
    cbn [map fst]. rewrite (IH bs Hbs). reflexivity.
Qed.

Lemma finish_names d out :
  value.finish d = Ok out -> map fst (columns out) = features ++ [label].
Proof.
  unfold value.finish. intros H.
  apply rbind_ok in H. destruct H as (chosen & Hchosen & H).
  apply rbind_ok in H. destruct H as (floats & Hfloats & H).
  apply getitem_cols_names in Hchosen.
  unfold frame.astype_float in Hfloats. apply rbind_ok in Hfloats.
  destruct Hfloats as (cs1 & Hcs1 & Hfloats). injection Hfloats as <-.
  unfold frame.fillna in H. apply rbind_ok in H.
  destruct H as (cs2 & Hcs2 & H). injection H as <-.
  cbn [columns] in *.
  rewrite (map_columns_names _ _ _ Hcs2), (map_columns_names _ _ _ Hcs1).
  exact Hchosen.
Qed.

Lemma prep_df_value_names taxi out :
  value.prep_df taxi = Ok out -> map fst (columns out) = features ++ [label].
Proof.
  unfold value.prep_df, value.derive. intros H.
  do 7 (apply rbind_ok in H; destruct H as (? & _ & H)).
  apply finish_names in H. exact H.
Qed.

Lemma prep_df_result_inv (h : gmap nat DataFrame) taxi_df out :
  prep_df_result h taxi_df = Some out ->
  exists taxi, h !! taxi_df = Some taxi /\ value.prep_df taxi = Ok out.
Proof.
  intros H. destruct (h !! taxi_df) as [taxi|] eqn:E.
  - exists taxi. split; [reflexivity|].
    rewrite (prep_df_result_value h taxi_df taxi E) in H.
    destruct (value.prep_df taxi); [congruence | discriminate].
  - unfold prep_df_result in H. rewrite (prep_df_dangling h taxi_df E) in H.
    discriminate.
Qed.

End claims_columns.

(** C6: whenever [prep_df] returns a table for an input whose column names
    are distinct, its columns are the six
    feature names followed by the label [tip_fraction], each once, and no
    other column. *)
Theorem C6_output_columns (h : gmap nat DataFrame) taxi_df taxi out :
  h !! taxi_df = Some taxi ->
  distinct_columns taxi ->
  prep_df_result h taxi_df = Some out ->
  map fst (columns out)
  = ["pickup_weekday"; "pickup_weekofyear"; "pickup_hour"; "pickup_week_hour";
     "pickup_minute"; "passenger_count"; "tip_fraction"]%string
  /\ forall c, (exists s, In (c, s) (columns out))
               <-> In c features \/ c = "tip_fraction"%string.
Proof.
  intros _ _ H. apply prep_df_result_inv in H. destruct H as (taxi' & _ & H).
  apply prep_df_value_names in H.
  split; [exact H|]. intros c.
  assert (Hin : (exists s, In (c, s) (columns out)) <-> In c (map fst (columns out))).
  { rewrite in_map_iff. split.
    - intros [s Hs]. exists (c, s). split; [reflexivity | exact Hs].
    - intros ([c' s] & Hc & Hs). simpl in Hc. subst c'. exists s. exact Hs. }
  rewrite Hin, H, in_app_iff. unfold label. cbn [In].
  split; (intros [Hc|Hc]; [left; exact Hc | right]).
  - destruct Hc as [Hc|[]]. symmetry. exact Hc.
  - left. symmetry. exact Hc.
Qed.

(** C9: a run of [prep_df], returning or raising, leaves the object its
    argument refers to exactly as it was (its index, columns and cells),
    and every other object the store held before the call as well: the
    assignments [df[c] = ...] change the copy only. *)
Theorem C9_input_unchanged (h : gmap nat DataFrame) taxi_df :
  (prep_df taxi_df h).1 !! taxi_df = h !! taxi_df
  /\ preserves h (prep_df taxi_df h).1.
Proof.
  destruct (h !! taxi_df) as [taxi|] eqn:E.
  - destruct (prep_df_refines taxi_df h taxi E) as (h' & Hp & Hf).
    assert (Hrun : (prep_df taxi_df h).1 = h').
    { destruct (value.prep_df taxi) as [out|e].
      - destruct Hf as (l & -> & _). reflexivity.
      - rewrite Hf. reflexivity. }
    rewrite Hrun. split; [apply Hp, E | exact Hp].
  - rewrite (prep_df_dangling h taxi_df E). cbn [fst].
    split; [exact E | apply preserves_refl].
Qed.

(** C7: applying [prep_df] twice to the same input gives the same output.
    The second call, made in the store the first one left, returns a
    table equal to the one the first call returned (a new object; the first
    one is still there), or raises the same exception. *)
Theorem C7_same_output_twice (h : gmap nat DataFrame) taxi_df :
  match prep_df taxi_df h with
  | (h1, r1) =>
      match prep_df taxi_df h1 with
      | (h2, r2) =>
          match r1, r2 with
          | Ok o1, Ok o2 =>
              exists out, h1 !! o1 = Some out /\ h2 !! o1 = Some out
                          /\ h2 !! o2 = Some out
          | Raise e1, Raise e2 => e1 = e2
          | _, _ => False
          end
      end
  end.
Proof.
  destruct (h !! taxi_df) as [taxi|] eqn:E.
  - destruct (prep_df_refines taxi_df h taxi E) as (h1 & Hp1 & Hf1).
    destruct (prep_df_refines taxi_df h1 taxi (Hp1 _ _ E)) as (h2 & Hp2 & Hf2).
    destruct (value.prep_df taxi) as [out|e].
    + destruct Hf1 as (o1 & -> & _ & Ho1).
      destruct Hf2 as (o2 & -> & _ & Ho2).
      exists out. split; [exact Ho1|]. split; [apply Hp2, Ho1 | exact Ho2].
    + rewrite Hf1, Hf2. reflexivity.
  - rewrite (prep_df_dangling h taxi_df E), (prep_df_dangling h taxi_df E).
    reflexivity.
Qed.

Section reading_rows.

Lemma bind_Some_inv {A B} (o : option A) (k : A -> option B) b :
  o ≫= k = Some b -> exists a, o = Some a /\ k a = Some b.
Proof. destruct o as [a|]; simpl; [eauto | discriminate]. Qed.

Lemma trip_at_cells d i r :
  trip_at d i = Some r ->
  index d !! i = Some (trip_label r)
  /\ pickup_cell d i = Some (trip_pickup r)
  /\ cell d "passenger_count" i = Some (trip_passengers r)
  /\ cell d "tip_amount" i = Some (trip_tip r)
  /\ cell d "fare_amount" i = Some (trip_fare r).
Proof.
  unfold trip_at. intros H.
  apply bind_Some_inv in H. destruct H as (lbl & -> & H).
  apply bind_Some_inv in H. destruct H as (t & -> & H).
  apply bind_Some_inv in H. destruct H as (pc & -> & H).
  apply bind_Some_inv in H. destruct H as (tip & -> & H).
  apply bind_Some_inv in H. destruct H as (fare & -> & H).
  injection H as <-. repeat split.
Qed.

Lemma features_at_cells d k f :
  features_at d k = Some f ->
  index d !! k = Some (row_label f)
  /\ float_cell d "pickup_weekday" k = Some (row_weekday f)
  /\ float_cell d "pickup_weekofyear" k = Some (row_weekofyear f)
  /\ float_cell d "pickup_hour" k = Some (row_hour f)
  /\ float_cell d "pickup_week_hour" k = Some (row_week_hour f)
  /\ float_cell d "pickup_minute" k = Some (row_minute f)
  /\ float_cell d "passenger_count" k = Some (row_passengers f)
  /\ float_cell d "tip_fraction" k = Some (row_tip_fraction f).
Proof.
  unfold features_at. intros H.
  apply bind_Some_inv in H. destruct H as (lbl & -> & H).
  apply bind_Some_inv in H. destruct H as (wd & -> & H).
  apply bind_Some_inv in H. destruct H as (wk & -> & H).
  apply bind_Some_inv in H. destruct H as (hr & -> & H).
  apply bind_Some_inv in H. destruct H as (wh & -> & H).
  apply bind_Some_inv in H. destruct H as (mn & -> & H).
  apply bind_Some_inv in H. destruct H as (pc & -> & H).
  apply bind_Some_inv in H. destruct H as (fr & -> & H).
  injection H as <-. repeat split.
Qed.

Lemma derive_row_fields r f :
  derive_row r = Some f ->
  exists pc tip fare,
    row.to_float (trip_passengers r) = Some pc
    /\ row.to_float (trip_tip r) = Some tip
    /\ row.to_float (trip_fare r) = Some fare
    /\ row_label f = trip_label r
    /\ row_weekday f = calendar_cell Timestamp.weekday (trip_pickup r)
    /\ row_weekofyear f = calendar_cell Timestamp.weekofyear (trip_pickup r)
    /\ row_hour f = calendar_cell Timestamp.hour (trip_pickup r)
    /\ row_week_hour f = week_hour_cell (trip_pickup r)
    /\ row_minute f = calendar_cell Timestamp.minute (trip_pickup r)
    /\ row_passengers f = row.fill pc
    /\ row_tip_fraction f = row.fill (tip / fare).
Proof.
  unfold derive_row. intros H.
  apply bind_Some_inv in H. destruct H as (pc & -> & H).
  apply bind_Some_inv in H. destruct H as (tip & -> & H).
  apply bind_Some_inv in H. destruct H as (fare & -> & H).
  injection H as <-. exists pc, tip, fare. repeat split.
Qed.

(** A float that is [<= 0] is not [> 0]; a float that is [> 0] is not
    a zero. *)
Lemma float_le0_not_gt0 x : (x <=? 0)%float = true -> (0 <? x)%float = false.
Proof.
  rewrite FloatAxioms.leb_spec, FloatAxioms.ltb_spec.
  change (Prim2SF 0) with (S754_zero false).
  destruct (Prim2SF x) as [s|s| |s m e]; try destruct s; cbn; congruence.
Qed.

Lemma float_gt0_nonzero x : (0 <? x)%float = true -> (x =? 0)%float = false.
Proof.
  rewrite FloatAxioms.eqb_spec, FloatAxioms.ltb_spec.
  change (Prim2SF 0) with (S754_zero false).
  destruct (Prim2SF x) as [s|s| |s m e]; try destruct s; cbn; congruence.
Qed.

Lemma le0_not_gt0 v : row.le0 v = true -> row.gt0 v = false.
Proof.
  destruct v as [x|z|t]; simpl.
  - apply float_le0_not_gt0.
  - intros H. apply Z.ltb_ge. apply Z.leb_le. exact H.
  - reflexivity.
Qed.

End reading_rows.

Section order_of_rows.

Lemma seq_sorted a n : StronglySorted lt (seq a n).
Proof.
  revert a. induction n as [|n IH]; intros a; simpl; constructor.
  - apply IH.
  - apply Forall_forall. intros x Hx.
    apply list_elem_of_In, in_seq in Hx. lia.
Qed.

Lemma filter_sorted (f : nat -> bool) l :
  StronglySorted lt l -> StronglySorted lt (List.filter f l).
Proof.
  induction 1 as [|x l Hl IH Hx]; simpl; [constructor|].
  destruct (f x); [|exact IH]. constructor; [exact IH|].
  apply Forall_forall. intros y Hy.
  apply list_elem_of_In, filter_In in Hy. destruct Hy as [Hy _].
  rewrite Forall_forall in Hx. apply Hx, list_elem_of_In, Hy.
Qed.

Lemma sorted_lookup_lt (l : list nat) :
  StronglySorted lt l ->
  forall k k' i i', (k < k')%nat -> l !! k = Some i -> l !! k' = Some i' ->
                    (i < i')%nat.
Proof.
  induction 1 as [|x l Hl IH Hx]; intros k k' i i' Hlt Hk Hk'.
  - discriminate.
  - destruct k' as [|k']; [lia|]. simpl in Hk'.
    destruct k as [|k]; simpl in Hk.
    + injection Hk as <-. rewrite Forall_forall in Hx.
      apply Hx. eapply list_elem_of_lookup_2. exact Hk'.
    + apply (IH k k'); [lia | assumption | assumption].
Qed.

Lemma positive_rows_increasing taxi k k' i i' :
  (k < k')%nat ->
  positive_rows taxi !! k = Some i -> positive_rows taxi !! k' = Some i' ->
  (i < i')%nat.
Proof. apply sorted_lookup_lt, filter_sorted, seq_sorted. Qed.

Lemma positive_rows_NoDup taxi : NoDup (positive_rows taxi).
Proof. apply NoDup_ListNoDup, List.NoDup_filter, seq_NoDup. Qed.

End order_of_rows.

(** C10: on a taxi table with distinct column names [prep_df] returns a table whose [k]-th row is the
    row derived from the [k]-th input row with [fare_amount > 0], counted
    in table order; so output rows follow one another as the input rows
    they come from do. *)
Theorem C10_row_order (h : gmap nat DataFrame) taxi_df taxi :
  h !! taxi_df = Some taxi ->
  taxi_table taxi ->
  distinct_columns taxi ->
  exists out,
    prep_df_result h taxi_df = Some out
    /\ length (index out) = length (positive_rows taxi)
    /\ (forall k i, positive_rows taxi !! k = Some i ->
          exists r f, trip_at taxi i = Some r
                      /\ derive_row r = Some f
                      /\ features_at out k = Some f
                      /\ index out !! k = index taxi !! i)
    /\ (forall k k' i i', (k < k')%nat ->
          positive_rows taxi !! k = Some i ->
          positive_rows taxi !! k' = Some i' -> (i < i')%nat).
Proof.
  intros Hin Htable Hdistinct.
  destruct (prep_df_rows h taxi_df taxi Hin Htable)
    as (out & Hout & _ & Hlen & _ & Hrows).
  exists out. split; [exact Hout|]. split; [exact Hlen|]. split.
  - intros k i Hk. destruct (Hrows k i Hk) as (r & f & Hr & Hf & Hfeat).
    exists r, f. repeat split; try assumption.
    apply features_at_cells in Hfeat. destruct Hfeat as (-> & _).
    apply trip_at_cells in Hr. destruct Hr as (-> & _).
    apply derive_row_fields in Hf.
    destruct Hf as (? & ? & ? & _ & _ & _ & -> & _). reflexivity.
  - apply positive_rows_increasing.
Qed.

(** C2: on a taxi table with distinct column names the output has one row for each input row with
    [fare_amount > 0] and none for a row with [fare_amount <= 0]: the
    output rows are derived from the positions listed in [positive_rows],
    a position with a fare [<= 0] is not listed, and a position with a
    fare [> 0] is listed exactly once. *)
Theorem C2_rows_kept (h : gmap nat DataFrame) taxi_df taxi :
  h !! taxi_df = Some taxi ->
  taxi_table taxi ->
  distinct_columns taxi ->
  exists out,
    prep_df_result h taxi_df = Some out
    /\ length (index out) = length (positive_rows taxi)
    /\ (forall k i, positive_rows taxi !! k = Some i ->
          exists r f, trip_at taxi i = Some r
                      /\ derive_row r = Some f
                      /\ features_at out k = Some f)
    /\ (forall i v, cell taxi "fare_amount" i = Some v -> row.le0 v = true ->
          forall k, positive_rows taxi !! k <> Some i)
    /\ (forall i v, (i < length (index taxi))%nat ->
          cell taxi "fare_amount" i = Some v -> row.gt0 v = true ->
          exists k, positive_rows taxi !! k = Some i
                    /\ (k < length (index out))%nat
                    /\ forall k', positive_rows taxi !! k' = Some i -> k' = k).
Proof.
  intros Hin Htable Hdistinct.
  destruct (prep_df_rows h taxi_df taxi Hin Htable)
    as (out & Hout & _ & Hlen & _ & Hrows).
  exists out. split; [exact Hout|]. split; [exact Hlen|].
  split; [exact Hrows|]. split.
  - intros i v Hv Hle k Hk.
    apply list_elem_of_lookup_2, list_elem_of_In, positive_rows_fare in Hk.
    destruct Hk as (v' & Hv' & Hgt & _).
    rewrite Hv in Hv'. injection Hv' as <-.
    rewrite (le0_not_gt0 v Hle) in Hgt. discriminate.
  - intros i v Hi Hv Hgt.
    assert (Hmem : In i (positive_rows taxi)).
    { apply positive_rows_fare. exists v. repeat split; assumption. }
    apply list_elem_of_In, list_elem_of_lookup_1 in Hmem. destruct Hmem as [k Hk].
    exists k. split; [exact Hk|]. split.
    + rewrite Hlen. eapply lookup_lt_Some. exact Hk.
    + intros k' Hk'.
      exact (NoDup_lookup _ _ _ _ (positive_rows_NoDup taxi) Hk' Hk).
Qed.

Ltac taxi_table_tac :=
  constructor;
  [ repeat constructor
  | eexists; reflexivity
  | eexists; split; [reflexivity | exact I]
  | eexists; split; [reflexivity | exact I]
  | eexists; split; [reflexivity | exact I] ].

Lemma one_row_table_ok ts pc tip fare : taxi_table (one_row_table ts pc tip fare).
Proof. taxi_table_tac. Qed.

(** C1 fails on a row whose tip is missing: for the one trip of
    [missing_tip_table], fare 10 and tip NaN, [prep_df] gives the label -1,
    and NaN / 10 is NaN. *)
Lemma C1_counterexample :
  (exists out,
     prep_df_result {[ 7%nat := missing_tip_table ]} 7 = Some out
     /\ positive_rows missing_tip_table !! 0%nat = Some 0%nat
     /\ cell missing_tip_table "tip_amount" 0 = Some (SFloat Num.NaN)
     /\ cell missing_tip_table "fare_amount" 0 = Some (SFloat 10)
     /\ float_cell out "tip_fraction" 0 = Some (-1)%float
     /\ Num.isna (Num.NaN / 10) = true)
  /\ ~ label_is_quotient.
Proof.
  pose (out := derived [0] [Some (Timestamp.of_civil 2019 1 7 13 45)] [1%float]
                 [Num.NaN] [10%float]).
  assert (Hrun : prep_df_result {[ 7%nat := missing_tip_table ]} 7 = Some out).
  { vm_compute. reflexivity. }
  split.
  - exists out. split; [exact Hrun|]. repeat split; vm_compute; reflexivity.
  - intros H.
    specialize (H {[ 7%nat := missing_tip_table ]} 7%nat missing_tip_table out
                  0%nat 0%nat (SFloat Num.NaN) (SFloat 10) Num.NaN 10%float
                  (lookup_singleton_eq _ _) (one_row_table_ok _ _ _ _) Hrun
                  eq_refl eq_refl eq_refl eq_refl eq_refl eq_refl).
    apply (f_equal (fun o => match o with Some x => Num.isna x | None => false end))
      in H.
    vm_compute in H. discriminate H.
Qed.

(** C1, amended: on a taxi table with distinct column names, the label of
    the output row that comes from an input row
    with a positive fare is the quotient tip / fare of that row when the
    quotient is a number, and -1 when it is NaN (a missing tip, or an
    infinite tip over an infinite fare). *)
Theorem C1_label (h : gmap nat DataFrame) taxi_df taxi k i a b x y :
  h !! taxi_df = Some taxi ->
  taxi_table taxi ->
  distinct_columns taxi ->
  positive_rows taxi !! k = Some i ->
  cell taxi "tip_amount" i = Some a ->
  cell taxi "fare_amount" i = Some b ->
  row.to_float a = Some x ->
  row.to_float b = Some y ->
  exists out,
    prep_df_result h taxi_df = Some out
    /\ row.gt0 b = true
    /\ float_cell out "tip_fraction" k
       = Some (if Num.isna (x / y) then (-1)%float else (x / y)%float).
Proof.
  intros Hin Htable Hdistinct Hk Ha Hb Hx Hy.
  destruct (prep_df_rows h taxi_df taxi Hin Htable)
    as (out & Hout & _ & _ & _ & Hrows).
  exists out. split; [exact Hout|].
  destruct (Hrows k i Hk) as (r & f & Hr & Hf & Hfeat).
  apply trip_at_cells in Hr. destruct Hr as (_ & _ & _ & Htip & Hfare).
  apply derive_row_fields in Hf.
  destruct Hf as (pc' & x' & y' & _ & Hx' & Hy' & _ & _ & _ & _ & _ & _ & _ & Hfrac).
  apply features_at_cells in Hfeat.
  destruct Hfeat as (_ & _ & _ & _ & _ & _ & _ & Hcell).
  assert (Ea : trip_tip r = a) by congruence.
  assert (Eb : trip_fare r = b) by congruence.
  rewrite Ea in Hx'. rewrite Eb in Hy'.
  assert (Ex : x' = x) by congruence.
  assert (Ey : y' = y) by congruence.
  split.
  - apply list_elem_of_lookup_2, list_elem_of_In, positive_rows_fare in Hk.
    destruct Hk as (v & Hv & Hgt & _).
    assert (Ev : v = b) by congruence. rewrite <- Ev. exact Hgt.
  - rewrite Hcell, Hfrac, Ex, Ey. reflexivity.
Qed.

(** C4 fails on a row whose pickup time is missing: for the one trip of
    [missing_pickup_table], weekday, hour and week-hour are all -1, and
    -1 * 24 + -1 is -25. *)
Lemma C4_counterexample :
  (exists out,
     prep_df_result {[ 7%nat := missing_pickup_table ]} 7 = Some out
     /\ pickup_cell missing_pickup_table 0 = Some None
     /\ float_cell out "pickup_weekday" 0 = Some (-1)%float
     /\ float_cell out "pickup_hour" 0 = Some (-1)%float
     /\ float_cell out "pickup_week_hour" 0 = Some (-1)%float
     /\ (-1 * 24 + -1 = -25)%float)
  /\ ~ week_hour_is_sum.
Proof.
  pose (out := derived [0] [None] [1%float] [2%float] [10%float]).
  assert (Hrun : prep_df_result {[ 7%nat := missing_pickup_table ]} 7 = Some out).
  { vm_compute. reflexivity. }
  split.
  - exists out. split; [exact Hrun|]. repeat split; vm_compute; reflexivity.
  - intros H.
    specialize (H {[ 7%nat := missing_pickup_table ]} 7%nat missing_pickup_table out
                  0%nat (-1)%float (-1)%float (-1)%float
                  (lookup_singleton_eq _ _) (one_row_table_ok _ _ _ _) Hrun
                  eq_refl eq_refl eq_refl).
    apply (f_equal (fun x => (x <? -2)%float)) in H.
    vm_compute in H. discriminate H.
Qed.

(** C4, amended: on a taxi table with distinct column names, in the output
    row that comes from an input row whose
    pickup time is present, the week-hour is the weekday times 24 plus the
    hour; when the pickup time is missing the three cells are -1. *)
Theorem C4_week_hour (h : gmap nat DataFrame) taxi_df taxi k i :
  h !! taxi_df = Some taxi ->
  taxi_table taxi ->
  distinct_columns taxi ->
  positive_rows taxi !! k = Some i ->
  exists out wd hr wh pickup,
    prep_df_result h taxi_df = Some out
    /\ pickup_cell taxi i = Some pickup
    /\ float_cell out "pickup_weekday" k = Some wd
    /\ float_cell out "pickup_hour" k = Some hr
    /\ float_cell out "pickup_week_hour" k = Some wh
    /\ match pickup with
       | Some t => wh = (wd * 24 + hr)%float
       | None => wd = (-1)%float /\ hr = (-1)%float /\ wh = (-1)%float
       end.
Proof.
  intros Hin Htable Hdistinct Hk.
  destruct (prep_df_rows h taxi_df taxi Hin Htable)
    as (out & Hout & _ & _ & _ & Hrows).
  destruct (Hrows k i Hk) as (r & f & Hr & Hf & Hfeat).
  apply trip_at_cells in Hr. destruct Hr as (_ & Hpickup & _).
  apply derive_row_fields in Hf.
  destruct Hf as (? & ? & ? & _ & _ & _ & _ & Hwd & _ & Hhr & Hwh & _).
  apply features_at_cells in Hfeat.
  destruct Hfeat as (_ & Cwd & _ & Chr & Cwh & _).
  exists out, (row_weekday f), (row_hour f), (row_week_hour f), (trip_pickup r).
  repeat (split; [assumption|]).
  rewrite Hwd, Hhr, Hwh.
  destruct (trip_pickup r) as [t|]; cbn [calendar_cell week_hour_cell].
  - apply week_hour_of_cells; [apply weekday_range | apply hour_range].
  - repeat split.
Qed.

(** C5: on a taxi table with distinct column names every column of the output is a float64 column as
    long as the index, none of its cells is NaN, and a cell whose value
    would be missing holds -1: the calendar cells of a row without pickup
    time, the passenger count when it is NaN, the label when the quotient
    is NaN. *)
Theorem C5_floats_filled (h : gmap nat DataFrame) taxi_df taxi :
  h !! taxi_df = Some taxi ->
  taxi_table taxi ->
  distinct_columns taxi ->
  exists out,
    prep_df_result h taxi_df = Some out
    /\ (forall c s, In (c, s) (columns out) ->
          exists xs, s = Float64 xs
                     /\ length xs = length (index out)
                     /\ forall x, In x xs -> Num.isna x = false)
    /\ (forall k i r, positive_rows taxi !! k = Some i -> trip_at taxi i = Some r ->
          (trip_pickup r = None ->
             float_cell out "pickup_weekday" k = Some (-1)%float
             /\ float_cell out "pickup_weekofyear" k = Some (-1)%float
             /\ float_cell out "pickup_hour" k = Some (-1)%float
             /\ float_cell out "pickup_week_hour" k = Some (-1)%float
             /\ float_cell out "pickup_minute" k = Some (-1)%float)
          /\ (forall x, row.to_float (trip_passengers r) = Some x ->
                Num.isna x = true ->
                float_cell out "passenger_count" k = Some (-1)%float)
          /\ (forall x y, row.to_float (trip_tip r) = Some x ->
                row.to_float (trip_fare r) = Some y ->
                Num.isna (x / y) = true ->
                float_cell out "tip_fraction" k = Some (-1)%float)).
Proof.
  intros Hin Htable Hdistinct.
  destruct (prep_df_rows h taxi_df taxi Hin Htable)
    as (out & Hout & _ & _ & Hcols & Hrows).
  exists out. split; [exact Hout|]. split.
  - intros c s Hcs. rewrite Forall_forall in Hcols.
    destruct (Hcols (c, s) (proj2 (list_elem_of_In _ _) Hcs)) as (xs & Hs & Hlen & Hxs).
    exists xs. split; [exact Hs|]. split; [exact Hlen|].
    intros x Hx. rewrite Forall_forall in Hxs.
    apply Hxs, list_elem_of_In, Hx.
  - intros k i r Hk Hr.
    destruct (Hrows k i Hk) as (r' & f & Hr' & Hf & Hfeat).
    assert (Er : r' = r) by congruence. subst r'.
    apply derive_row_fields in Hf.
    destruct Hf as (pc & tip & fare & Hpc & Htip & Hfare & _ & Hwd & Hwk & Hhr
                    & Hwh & Hmn & Hps & Hfr).
    apply features_at_cells in Hfeat.
    destruct Hfeat as (_ & Cwd & Cwk & Chr & Cwh & Cmn & Cps & Cfr).
    split; [|split].
    + intros Hnone. rewrite Hnone in *.
      rewrite Cwd, Cwk, Chr, Cwh, Cmn, Hwd, Hwk, Hhr, Hwh, Hmn.
      repeat split.
    + intros x Hx Hnan. assert (Ex : pc = x) by congruence.
      rewrite Cps, Hps, Ex. unfold row.fill. rewrite Hnan. reflexivity.
    + intros x y Hx Hy Hnan.
      assert (Ex : tip = x) by congruence. assert (Ey : fare = y) by congruence.
      rewrite Cfr, Hfr, Ex, Ey. unfold row.fill. rewrite Hnan. reflexivity.
Qed.

(** C8: on a taxi table with distinct column names, a row with fare 10,
    tip 2 and pickup time 2019-01-07 13:45, a Monday, gives an output row
    with label 0.2, weekday 0, hour 13, week-hour 13 and minute 45. *)
Theorem C8_example (h : gmap nat DataFrame) taxi_df taxi i :
  h !! taxi_df = Some taxi ->
  taxi_table taxi ->
  distinct_columns taxi ->
  pickup_cell taxi i = Some (Some (Timestamp.of_civil 2019 1 7 13 45)) ->
  cell taxi "fare_amount" i = Some (SFloat 10) ->
  cell taxi "tip_amount" i = Some (SFloat 2) ->
  exists out k,
    prep_df_result h taxi_df = Some out
    /\ positive_rows taxi !! k = Some i
    /\ float_cell out "tip_fraction" k = Some 0.2%float
    /\ float_cell out "pickup_weekday" k = Some 0%float
    /\ float_cell out "pickup_hour" k = Some 13%float
    /\ float_cell out "pickup_week_hour" k = Some 13%float
    /\ float_cell out "pickup_minute" k = Some 45%float.
Proof.
  intros Hin Htable Hdistinct Hpickup Hfare Htip.
  destruct (prep_df_rows h taxi_df taxi Hin Htable)
    as (out & Hout & _ & _ & _ & Hrows).
  assert (Hi : (i < length (index taxi))%nat).
  { destruct Htable as [Hrect _ _ _ _].
    unfold cell in Hfare. apply bind_Some_inv in Hfare.
    destruct Hfare as (s & Hs & Hnth).
    rewrite <- (lookup_col_len taxi _ _ Hrect Hs).
    destruct s as [xs|xs|xs]; simpl in Hnth |- *;
      destruct (xs !! i) eqn:E; try discriminate;
      eapply lookup_lt_Some; exact E. }
  assert (Hmem : In i (positive_rows taxi)).
  { apply positive_rows_fare. exists (SFloat 10). repeat split; assumption. }
  apply list_elem_of_In, list_elem_of_lookup_1 in Hmem. destruct Hmem as [k Hk].
  exists out, k. split; [exact Hout|]. split; [exact Hk|].
  destruct (Hrows k i Hk) as (r & f & Hr & Hf & Hfeat).
  apply trip_at_cells in Hr. destruct Hr as (_ & Hp & _ & Ht & Hf').
  apply derive_row_fields in Hf.
  destruct Hf as (pc & tip & fare & _ & Etip & Efare & _ & Hwd & _ & Hhr
                  & Hwh & Hmn & _ & Hfr).
  apply features_at_cells in Hfeat.
  destruct Hfeat as (_ & Cwd & _ & Chr & Cwh & Cmn & _ & Cfr).
  assert (E1 : trip_pickup r = Some (Timestamp.of_civil 2019 1 7 13 45)) by congruence.
  assert (E2 : trip_tip r = SFloat 2) by congruence.
  assert (E3 : trip_fare r = SFloat 10) by congruence.
  rewrite E1 in *. rewrite E2 in Etip. rewrite E3 in Efare.
  cbn [row.to_float] in Etip, Efare.
  injection Etip as <-. injection Efare as <-.
  rewrite Cfr, Cwd, Chr, Cwh, Cmn, Hfr, Hwd, Hhr, Hwh, Hmn.
  vm_compute. repeat split.
Qed.

Section divisor.

Lemma gt0_not_zero v : row.gt0 v = true -> is_zero v = false.
Proof.
  destruct v as [x|z|t]; simpl.
  - apply float_gt0_nonzero.
  - intros H. apply Z.ltb_lt in H. apply Z.eqb_neq. lia.
  - reflexivity.
Qed.

Lemma mask_filter_self {A} (f : A -> bool) xs :
  Forall (fun x => f x = true) (mask_filter (map f xs) xs).
Proof.
  induction xs as [|x xs IH]; simpl; [constructor|].
  destruct (f x) eqn:E; [constructor; assumption | exact IH].
Qed.

(** The entries a mask [s > 0] keeps of [s] are positive. *)
Lemma masked_positive s m k v :
  series.gt0 s = Ok m ->
  series_nth (series.filter m s) k = Some v -> row.gt0 v = true.
Proof.
  destruct s as [xs|xs|xs]; simpl; intros Hm Hv; try discriminate;
    injection Hm as <-.
  - destruct (mask_filter _ xs !! k) as [x|] eqn:E; [|discriminate].
    injection Hv as <-. apply list_elem_of_lookup_2 in E.
    pose proof (mask_filter_self (fun x => (0 <? x)%float) xs) as Hall.
    rewrite Forall_forall in Hall. apply (Hall _ E).
  - destruct (mask_filter _ xs !! k) as [x|] eqn:E; [|discriminate].
    injection Hv as <-. apply list_elem_of_lookup_2 in E.
    pose proof (mask_filter_self (fun z => 0 <? z) xs) as Hall.
    rewrite Forall_forall in Hall. apply (Hall _ E).
Qed.

Lemma col_lookup d c s :
  frame.col d c = Ok s <-> frame.lookup_col (columns d) c = Some s.
Proof.
  unfold frame.col. destruct (frame.lookup_col (columns d) c);
    split; intros H; congruence.
Qed.

Lemma attr_lookup d c s :
  frame.attr d c = Ok s <-> frame.lookup_col (columns d) c = Some s.
Proof.
  unfold frame.attr. destruct (frame.lookup_col (columns d) c);
    split; intros H; congruence.
Qed.

Lemma attr_col d c s : frame.attr d c = Ok s <-> frame.col d c = Ok s.
Proof. rewrite attr_lookup, col_lookup. reflexivity. Qed.

Lemma getitem_cols_col names p d c :
  frame.getitem_cols names p = Ok d -> In c names ->
  frame.col d c = frame.col p c.
Proof.
  unfold frame.getitem_cols. intros H Hc.
  apply rbind_ok in H. destruct H as (cs & Hcs & H). injection H as <-.
  unfold frame.col at 1. cbn [columns]. revert cs Hcs.
  induction names as [|c0 names IH]; intros cs Hcs; [contradiction|].
  simpl in Hcs.
  apply rbind_ok in Hcs. destruct Hcs as (b & Hb & Hcs).
  apply rbind_ok in Hcs. destruct Hcs as (bs & Hbs & Hcs).
  injection Hcs as <-.
  apply rbind_ok in Hb. destruct Hb as (s0 & Hs0 & Hb). injection Hb as <-.
  cbn [frame.lookup_col].
  destruct (String.eqb_spec c0 c) as [->|Hne].
  - rewrite Hs0. reflexivity.
  - destruct Hc as [Hc|Hc]; [contradiction|]. apply (IH Hc bs Hbs).
Qed.

Lemma select_rows_dangling (h : gmap nat DataFrame) taxi_df :
  h !! taxi_df = None -> select_rows taxi_df h = (h, Raise ReferenceError).
Proof.
  intros H. unfold select_rows, bind, pd.getattr, read. rewrite H. reflexivity.
Qed.

(** The fare column of the table the first statement builds. *)
Lemma select_rows_fare taxi d fare :
  value.select_rows taxi = Ok d ->
  frame.attr d "fare_amount" = Ok fare ->
  exists fare0 m, series.gt0 fare0 = Ok m /\ fare = series.filter m fare0.
Proof.
  unfold value.select_rows. intros H Hcol.
  apply rbind_ok in H. destruct H as (fare0 & Hfare0 & H).
  apply rbind_ok in H. destruct H as (m & Hm & H).
  apply rbind_ok in H. destruct H as (p & Hp & H).
  apply rbind_ok in H. destruct H as (raw & Hraw & H).
  injection H as <-.
  apply attr_col in Hcol. apply attr_lookup in Hfare0. apply col_lookup in Hfare0.
  rewrite (getitem_cols_col _ _ _ "fare_amount" Hraw) in Hcol
    by (cbn; auto).
  unfold frame.getitem_mask in Hp.
  destruct (Nat.eqb (length m) (length (index taxi))); [|discriminate].
  injection Hp as <-.
  apply col_lookup in Hcol. cbn [columns] in Hcol.
  rewrite lookup_col_masked in Hcol.
  apply col_lookup in Hfare0. rewrite Hfare0 in Hcol.
  injection Hcol as <-. exists fare0, m. split; [exact Hm | reflexivity].
Qed.

End divisor.

(** C3: the divisor of [df.tip_amount / df.fare_amount] is never zero.
    [df] is the table the first statement of [prep_df] built, and every
    entry of its [fare_amount] column, which is what the second statement
    divides by, is strictly positive, hence not a zero. *)
Theorem C3_divisor_positive (h h1 h2 : gmap nat DataFrame) taxi_df df fare :
  select_rows taxi_df h = (h1, Ok df) ->
  pd.getattr df "fare_amount" h1 = (h2, Ok fare) ->
  forall k v, series_nth fare k = Some v ->
    row.gt0 v = true /\ is_zero v = false.
Proof.
  intros Hsel Hget k v Hv.
  destruct (h !! taxi_df) as [taxi|] eqn:E.
  2: { rewrite (select_rows_dangling h taxi_df E) in Hsel. discriminate. }
  destruct (select_rows_builds taxi_df h taxi E) as (h' & _ & Hf).
  destruct (value.select_rows taxi) as [d|e] eqn:Hval.
  2: { rewrite Hf in Hsel. discriminate. }
  destruct Hf as (l & Hrun & _ & Hl).
  rewrite Hrun in Hsel. injection Hsel as <- <-.
  unfold pd.getattr, read in Hget. rewrite Hl in Hget.
  injection Hget as _ Hcol.
  destruct (select_rows_fare taxi d fare Hval Hcol) as (fare0 & m & Hm & ->).
  assert (Hgt : row.gt0 v = true) by (eapply masked_positive; eassumption).
  split; [exact Hgt | apply gt0_not_zero, Hgt].
Qed.

Example prep_df_sample : prep_df_result sample_store 7 = Some sample_features.
Proof. vm_compute. reflexivity. Qed.

(** The copy is the object the assignments change: after the run it holds
    the raw columns and the derived ones, and the input holds what it
    held. *)
Example prep_df_sample_store :
  (prep_df 7 sample_store).1 !! 7%nat = Some sample_taxi
  /\ (map fst <$> (columns <$> (prep_df 7 sample_store).1 !! 10%nat))
     = Some ["tpep_pickup_datetime"; "passenger_count"; "tip_amount";
             "fare_amount"; "tip_fraction"; "pickup_weekday";
             "pickup_weekofyear"; "pickup_hour"; "pickup_week_hour";
             "pickup_minute"]%string.
Proof. vm_compute. split; reflexivity. Qed.

Ltac by_computation := vm_compute; reflexivity.

Ltac on_sample := repeat first [by_computation | taxi_table_tac | split].

Lemma C1_label_witness :
  (sample_store !! 7%nat = Some sample_taxi
   /\ taxi_table sample_taxi
   /\ distinct_columns sample_taxi
   /\ positive_rows sample_taxi !! 1%nat = Some 3%nat
   /\ cell sample_taxi "tip_amount" 3 = Some (SFloat Num.NaN)
   /\ cell sample_taxi "fare_amount" 3 = Some (SFloat 5)
   /\ row.to_float (SFloat Num.NaN) = Some Num.NaN
   /\ row.to_float (SFloat 5) = Some 5%float)
  /\ exists out,
       prep_df_result sample_store 7 = Some out
       /\ row.gt0 (SFloat 5) = true
       /\ float_cell out "tip_fraction" 1
          = Some (if Num.isna (Num.NaN / 5) then (-1)%float else (Num.NaN / 5)%float).
Proof.
  split.
  - on_sample.
  - apply (C1_label sample_store 7 sample_taxi 1 3 (SFloat Num.NaN) (SFloat 5)
             Num.NaN 5%float); try by_computation. taxi_table_tac.
Defined.

Lemma C2_rows_kept_witness :
  (sample_store !! 7%nat = Some sample_taxi /\ taxi_table sample_taxi
   /\ distinct_columns sample_taxi)
  /\ exists out,
       prep_df_result sample_store 7 = Some out
       /\ length (index out) = length (positive_rows sample_taxi)
       /\ (forall k i, positive_rows sample_taxi !! k = Some i ->
             exists r f, trip_at sample_taxi i = Some r
                         /\ derive_row r = Some f
                         /\ features_at out k = Some f)
       /\ (forall i v, cell sample_taxi "fare_amount" i = Some v ->
             row.le0 v = true ->
             forall k, positive_rows sample_taxi !! k <> Some i)
       /\ (forall i v, (i < length (index sample_taxi))%nat ->
             cell sample_taxi "fare_amount" i = Some v -> row.gt0 v = true ->
             exists k, positive_rows sample_taxi !! k = Some i
                       /\ (k < length (index out))%nat
                       /\ forall k', positive_rows sample_taxi !! k' = Some i -> k' = k).
Proof.
  split.
  - on_sample.
  - apply (C2_rows_kept sample_store 7 sample_taxi); [by_computation | taxi_table_tac | by_computation].
Defined.

Lemma C3_divisor_positive_witness :
  (select_rows 7 sample_store = ((select_rows 7 sample_store).1, Ok 10%nat)
   /\ pd.getattr 10 "fare_amount" (select_rows 7 sample_store).1
      = ((select_rows 7 sample_store).1, Ok (Float64 [10; 5]%float))
   /\ series_nth (Float64 [10; 5]%float) 1 = Some (SFloat 5))
  /\ row.gt0 (SFloat 5) = true /\ is_zero (SFloat 5) = false.
Proof.
  split.
  - on_sample.
  - refine (C3_divisor_positive sample_store (select_rows 7 sample_store).1
              (select_rows 7 sample_store).1 7%nat 10%nat (Float64 [10; 5]%float)
              _ _ 1%nat (SFloat 5) _);
      by_computation.
Defined.

Lemma C4_week_hour_witness :
  (sample_store !! 7%nat = Some sample_taxi
   /\ taxi_table sample_taxi
   /\ distinct_columns sample_taxi
   /\ positive_rows sample_taxi !! 0%nat = Some 0%nat)
  /\ exists out wd hr wh pickup,
       prep_df_result sample_store 7 = Some out
       /\ pickup_cell sample_taxi 0 = Some pickup
       /\ float_cell out "pickup_weekday" 0 = Some wd
       /\ float_cell out "pickup_hour" 0 = Some hr
       /\ float_cell out "pickup_week_hour" 0 = Some wh
       /\ match pickup with
          | Some t => wh = (wd * 24 + hr)%float
          | None => wd = (-1)%float /\ hr = (-1)%float /\ wh = (-1)%float
          end.
Proof.
  split.
  - on_sample.
  - apply (C4_week_hour sample_store 7 sample_taxi 0 0); try by_computation.
    taxi_table_tac.
Defined.

Lemma C5_floats_filled_witness :
  (sample_store !! 7%nat = Some sample_taxi /\ taxi_table sample_taxi
   /\ distinct_columns sample_taxi)
  /\ exists out,
       prep_df_result sample_store 7 = Some out
       /\ (forall c s, In (c, s) (columns out) ->
             exists xs, s = Float64 xs
                        /\ length xs = length (index out)
                        /\ forall x, In x xs -> Num.isna x = false)
       /\ (forall k i r, positive_rows sample_taxi !! k = Some i ->
             trip_at sample_taxi i = Some r ->
             (trip_pickup r = None ->
                float_cell out "pickup_weekday" k = Some (-1)%float
                /\ float_cell out "pickup_weekofyear" k = Some (-1)%float
                /\ float_cell out "pickup_hour" k = Some (-1)%float
                /\ float_cell out "pickup_week_hour" k = Some (-1)%float
                /\ float_cell out "pickup_minute" k = Some (-1)%float)
             /\ (forall x, row.to_float (trip_passengers r) = Some x ->
                   Num.isna x = true ->
                   float_cell out "passenger_count" k = Some (-1)%float)
             /\ (forall x y, row.to_float (trip_tip r) = Some x ->
                   row.to_float (trip_fare r) = Some y ->
                   Num.isna (x / y) = true ->
                   float_cell out "tip_fraction" k = Some (-1)%float)).
Proof.
  split.
  - on_sample.
  - apply (C5_floats_filled sample_store 7 sample_taxi);
      [by_computation | taxi_table_tac | by_computation].
Defined.

Lemma C6_output_columns_witness :
  (sample_store !! 7%nat = Some sample_taxi
   /\ distinct_columns sample_taxi
   /\ prep_df_result sample_store 7 = Some sample_features)
  /\ map fst (columns sample_features)
     = ["pickup_weekday"; "pickup_weekofyear"; "pickup_hour"; "pickup_week_hour";
        "pickup_minute"; "passenger_count"; "tip_fraction"]%string
  /\ forall c, (exists s, In (c, s) (columns sample_features))
               <-> In c features \/ c = "tip_fraction"%string.
Proof.
  split.
  - repeat split; by_computation.
  - apply (C6_output_columns sample_store 7 sample_taxi sample_features);
      by_computation.
Defined.

Lemma C8_example_witness :
  (sample_store !! 7%nat = Some sample_taxi
   /\ taxi_table sample_taxi
   /\ distinct_columns sample_taxi
   /\ pickup_cell sample_taxi 0 = Some (Some (Timestamp.of_civil 2019 1 7 13 45))
   /\ cell sample_taxi "fare_amount" 0 = Some (SFloat 10)
   /\ cell sample_taxi "tip_amount" 0 = Some (SFloat 2))
  /\ exists out k,
       prep_df_result sample_store 7 = Some out
       /\ positive_rows sample_taxi !! k = Some 0%nat
       /\ float_cell out "tip_fraction" k = Some 0.2%float
       /\ float_cell out "pickup_weekday" k = Some 0%float
       /\ float_cell out "pickup_hour" k = Some 13%float
       /\ float_cell out "pickup_week_hour" k = Some 13%float
       /\ float_cell out "pickup_minute" k = Some 45%float.
Proof.
  split.
  - on_sample.
  - apply (C8_example sample_store 7 sample_taxi 0); try by_computation.
    taxi_table_tac.
Defined.

Lemma C10_row_order_witness :
  (sample_store !! 7%nat = Some sample_taxi /\ taxi_table sample_taxi
   /\ distinct_columns sample_taxi)
  /\ exists out,
       prep_df_result sample_store 7 = Some out
       /\ length (index out) = length (positive_rows sample_taxi)
       /\ (forall k i, positive_rows sample_taxi !! k = Some i ->
             exists r f, trip_at sample_taxi i = Some r
                         /\ derive_row r = Some f
                         /\ features_at out k = Some f
                         /\ index out !! k = index sample_taxi !! i)
       /\ (forall k k' i i', (k < k')%nat ->
             positive_rows sample_taxi !! k = Some i ->
             positive_rows sample_taxi !! k' = Some i' -> (i < i')%nat).
Proof.
  split.
  - on_sample.
  - apply (C10_row_order sample_store 7 sample_taxi);
      [by_computation | taxi_table_tac | by_computation].
Defined.

(** * The code around [prep_df] *)

Section columns_by_name.

Lemma lookup_col_None cs c :
  frame.lookup_col cs c = None <-> ~ In c (map fst cs).
Proof.
  induction cs as [|[c' s] cs IH]; simpl; [tauto|].
  destruct (String.eqb_spec c' c) as [->|Hne].
  - split; [discriminate | intros H; exfalso; apply H; left; reflexivity].
  - rewrite IH. split.
    + intros H [Hc|Hc]; [contradiction | exact (H Hc)].
    + intros H Hc. apply H. right. exact Hc.
Qed.

Lemma lookup_col_Some_name cs c :
  In c (map fst cs) -> exists s, frame.lookup_col cs c = Some s.
Proof.
  intros H. destruct (frame.lookup_col cs c) as [s|] eqn:E; [eauto|].
  apply lookup_col_None in E. contradiction.
Qed.

Lemma lookup_col_In cs c s : frame.lookup_col cs c = Some s -> In (c, s) cs.
Proof.
  induction cs as [|[c' s'] cs IH]; simpl; [discriminate|].
  destruct (String.eqb_spec c' c) as [->|Hne].
  - intros H. injection H as <-. left. reflexivity.
  - intros H. right. apply IH, H.
Qed.

Lemma lookup_set_col cs c s c' :
  frame.lookup_col (frame.set_col cs c s) c'
  = if String.eqb c c' then Some s else frame.lookup_col cs c'.
Proof.
  induction cs as [|[c0 s0] cs IH]; simpl.
  - destruct (String.eqb c c'); reflexivity.
  - destruct (String.eqb_spec c0 c) as [->|Hne]; simpl.
    + destruct (String.eqb c c'); reflexivity.
    + destruct (String.eqb_spec c0 c') as [->|Hne'].
      * destruct (String.eqb_spec c c') as [->|_]; [contradiction | reflexivity].
      * exact IH.
Qed.

(** Selecting columns that are all there does not raise. *)
Lemma getitem_cols_total names d :
  (forall c, In c names -> In c (map fst (columns d))) ->
  exists out, frame.getitem_cols names d = Ok out.
Proof.
  intros H. unfold frame.getitem_cols.
  assert (Hcs : exists cs,
             rmapM (fun c => let! s := frame.col d c in Ok (c, s)) names = Ok cs).
  { induction names as [|c names IH]; simpl; [eauto|].
    destruct (lookup_col_Some_name (columns d) c (H c (or_introl eq_refl)))
      as [s Hs].
    unfold frame.col at 1. rewrite Hs. cbn [rbind].
    destruct IH as [cs ->]; [intros c' Hc'; apply H; right; exact Hc'|].
    cbn [rbind]. eauto. }
  destruct Hcs as [cs ->]. cbn [rbind]. eauto.
Qed.

Lemma getitem_cols_index names d out :
  frame.getitem_cols names d = Ok out -> index out = index d.
Proof.
  unfold frame.getitem_cols. intros H.
  apply rbind_ok in H. destruct H as (cs & _ & H). injection H as <-.
  reflexivity.
Qed.

End columns_by_name.

Section runs_of_prep_df.

(** A run that returns: the reference is new, and the object there is
    what the derivation on values gives. *)
Lemma prep_df_run_ok (h h' : gmap nat DataFrame) taxi_df out_ref :
  prep_df taxi_df h = (h', Ok out_ref) ->
  exists taxi out,
    h !! taxi_df = Some taxi
    /\ value.prep_df taxi = Ok out
    /\ h' !! out_ref = Some out
    /\ h !! out_ref = None
    /\ preserves h h'.
Proof.
  intros Hrun. destruct (h !! taxi_df) as [taxi|] eqn:E.
  2: { rewrite (prep_df_dangling h taxi_df E) in Hrun. discriminate. }
  destruct (prep_df_refines taxi_df h taxi E) as (h1 & Hp & Hf).
  destruct (value.prep_df taxi) as [out|e] eqn:Hval.
  - destruct Hf as (l & Hl & Hnew & Hout).
    rewrite Hl in Hrun. injection Hrun as <- <-.
    exists taxi, out.
    split; [reflexivity|]. split; [exact Hval|]. split; [exact Hout|].
    split; [exact Hnew | exact Hp].
  - rewrite Hf in Hrun. discriminate.
Qed.

End runs_of_prep_df.

(** X2: [prep_df] reads the index and the four raw columns only.  Two
    tables with distinct column names, the same index and the same
    [tpep_pickup_datetime], [passenger_count], [tip_amount] and
    [fare_amount] columns, whatever else they hold and in whatever stores,
    give the same result: the same table, or a failure in both. *)
Theorem prep_df_reads_raw_columns_only
    (h1 h2 : gmap nat DataFrame) l1 l2 (a b : DataFrame) :
  h1 !! l1 = Some a ->
  h2 !! l2 = Some b ->
  distinct_columns a ->
  distinct_columns b ->
  index a = index b ->
  (forall c, In c raw_features ->
     frame.lookup_col (columns a) c = frame.lookup_col (columns b) c) ->
  prep_df_result h1 l1 = prep_df_result h2 l2.
Proof.
  intros Ha Hb Hda Hdb Hidx Hcols.
  rewrite (prep_df_result_value h1 l1 a Ha), (prep_df_result_value h2 l2 b Hb).
  assert (Hsel : value.select_rows a = value.select_rows b).
  { unfold value.select_rows, frame.attr.
    rewrite (Hcols "fare_amount"%string) by (cbn; auto).
    destruct (frame.lookup_col (columns b) "fare_amount") as [fare|];
      [|reflexivity].
    cbn [rbind]. destruct (series.gt0 fare) as [m|e]; [|reflexivity].
    cbn [rbind]. unfold frame.getitem_mask. rewrite Hidx.
    destruct (Nat.eqb (length m) (length (index b))); [|reflexivity].
    cbn [rbind]. unfold frame.getitem_cols, frame.col.
    cbn [raw_features rmapM columns index].
    rewrite !lookup_col_masked.
    rewrite (Hcols "tpep_pickup_datetime"%string) by (cbn; auto).
    rewrite (Hcols "passenger_count"%string) by (cbn; auto).
    rewrite (Hcols "tip_amount"%string) by (cbn; auto).
    rewrite (Hcols "fare_amount"%string) by (cbn; auto 10).
    reflexivity. }
  unfold value.prep_df. rewrite Hsel. reflexivity.
Qed.

(** X3: [prep_df] cannot be applied to its own output.  A table it returned
    has no [fare_amount] column, so a second application to that table
    raises at the first statement and leaves the store as it is. *)
Theorem prep_df_of_its_output_raises
    (h h2 : gmap nat DataFrame) taxi_df l out :
  prep_df_result h taxi_df = Some out ->
  h2 !! l = Some out ->
  (exists e, prep_df l h2 = (h2, Raise e))
  /\ prep_df_result h2 l = None.
Proof.
  intros Hout Hl.
  apply prep_df_result_inv in Hout. destruct Hout as (taxi & _ & Hval).
  apply prep_df_value_names in Hval.
  assert (Hnone : frame.lookup_col (columns out) "fare_amount" = None).
  { apply lookup_col_None. rewrite Hval. cbn. intuition discriminate. }
  assert (Hrun : prep_df l h2 = (h2, Raise AttributeError)).
  { unfold prep_df, select_rows, bind, pd.getattr, read, frame.attr.
    rewrite Hl, Hnone. reflexivity. }
  split; [eexists; exact Hrun|].
  unfold prep_df_result. rewrite Hrun. reflexivity.
Qed.

(** X9: the selections [taxi_feat[features]] and [taxi_feat[label]] never
    raise on a table [prep_df] returned for an input with distinct column
    names.  The first is a new table with the
    six feature columns of [taxi_feat], in the order of [features], and its
    index; the second is its [tip_fraction] column; [taxi_feat] and the
    input of [prep_df] stay as they are. *)
Theorem model_inputs_after_prep_df
    (h h1 : gmap nat DataFrame) taxi_df taxi taxi_feat :
  h !! taxi_df = Some taxi ->
  distinct_columns taxi ->
  prep_df taxi_df h = (h1, Ok taxi_feat) ->
  exists h2 X y feat Xd,
    model_inputs taxi_feat h1 = (h2, Ok (X, y))
    /\ h1 !! taxi_feat = Some feat
    /\ h2 !! taxi_feat = Some feat
    /\ h2 !! taxi_df = h !! taxi_df
    /\ h2 !! X = Some Xd
    /\ X <> taxi_feat
    /\ map fst (columns Xd) = features
    /\ index Xd = index feat
    /\ (forall c, In c features ->
          frame.lookup_col (columns Xd) c = frame.lookup_col (columns feat) c)
    /\ frame.lookup_col (columns feat) "tip_fraction" = Some y.
Proof.
  intros _ _ Hrun.
  destruct (prep_df_run_ok h h1 taxi_df taxi_feat Hrun)
    as (taxi' & feat & Hin & Hval & Hfeat & _ & Hp).
  pose proof (prep_df_value_names taxi' feat Hval) as Hnames.
  destruct (getitem_cols_total features feat) as [Xd HXd].
  { intros c Hc. rewrite Hnames. apply in_or_app. left. exact Hc. }
  destruct (lookup_col_Some_name (columns feat) label) as [y Hy].
  { rewrite Hnames. apply in_or_app. right. left. reflexivity. }
  set (X := fresh (dom h1)).
  exists (<[X := Xd]> h1), X, y, feat, Xd.
  assert (HX : h1 !! X = None) by apply fresh_unused.
  assert (Hne : X <> taxi_feat) by congruence.
  split.
  { unfold model_inputs, bind, pd.getitem_cols, new_from, pd_getitem, read, ret.
    rewrite Hfeat, HXd. cbn zeta. fold X.
    rewrite lookup_insert_ne by exact Hne. rewrite Hfeat.
    unfold frame.col. rewrite Hy. reflexivity. }
  split; [exact Hfeat|].
  split; [rewrite lookup_insert_ne by exact Hne; exact Hfeat|].
  split.
  { rewrite lookup_insert_ne.
    - rewrite Hin. apply Hp, Hin.
    - intros ->. apply Hp in Hin. congruence. }
  split; [apply lookup_insert_eq|].
  split; [exact Hne|].
  split; [exact (getitem_cols_names _ _ _ HXd)|].
  split; [exact (getitem_cols_index _ _ _ HXd)|].
  split; [|exact Hy].
  intros c Hc. pose proof (getitem_cols_col _ _ _ c HXd Hc) as Hcol.
  unfold frame.col in Hcol.
  destruct (frame.lookup_col (columns Xd) c), (frame.lookup_col (columns feat) c);
    congruence.
Qed.

(** X4: the table [prep_df] returns is a new object: its reference is not
    the argument's and names no object the store held before, so an
    assignment [taxi_feat[c] = s] made later changes neither the input
    table nor any of those objects. *)
Theorem prep_df_returns_new_object
    (h h1 : gmap nat DataFrame) taxi_df taxi_feat c s :
  prep_df taxi_df h = (h1, Ok taxi_feat) ->
  taxi_feat <> taxi_df
  /\ h !! taxi_feat = None
  /\ preserves h (pd.setitem taxi_feat c s h1).1.
Proof.
  intros Hrun.
  destruct (prep_df_run_ok h h1 taxi_df taxi_feat Hrun)
    as (taxi & feat & Hin & _ & Hfeat & Hnew & Hp).
  split; [congruence|]. split; [exact Hnew|].
  destruct (update_updates taxi_feat (frame.setitem c s) h1 feat Hfeat)
    as (h2 & Hmod & Hf).
  assert (Hh2 : (pd.setitem taxi_feat c s h1).1 = h2).
  { unfold pd.setitem. destruct (frame.setitem c s feat).
    - destruct Hf as [-> _]. reflexivity.
    - rewrite Hf. reflexivity. }
  rewrite Hh2. intros l d Hl.
  rewrite Hmod; [apply Hp, Hl | congruence].
Qed.

(** X7: on a taxi table with distinct column names, the passenger count of
    a kept row is carried over to the output as
    a float, with -1 in place of NaN. *)
Theorem passenger_count_carried_over
    (h : gmap nat DataFrame) taxi_df taxi k i v x :
  h !! taxi_df = Some taxi ->
  taxi_table taxi ->
  distinct_columns taxi ->
  positive_rows taxi !! k = Some i ->
  cell taxi "passenger_count" i = Some v ->
  row.to_float v = Some x ->
  exists out,
    prep_df_result h taxi_df = Some out
    /\ float_cell out "passenger_count" k
       = Some (if Num.isna x then (-1)%float else x).
Proof.
  intros Hin Htable Hdistinct Hk Hv Hx.
  destruct (prep_df_rows h taxi_df taxi Hin Htable)
    as (out & Hout & _ & _ & _ & Hrows).
  exists out. split; [exact Hout|].
  destruct (Hrows k i Hk) as (r & f & Hr & Hf & Hfeat).
  apply trip_at_cells in Hr. destruct Hr as (_ & _ & Hpc & _).
  apply derive_row_fields in Hf.
  destruct Hf as (pc & ? & ? & Epc & _ & _ & _ & _ & _ & _ & _ & _ & Hps & _).
  apply features_at_cells in Hfeat.
  destruct Hfeat as (_ & _ & _ & _ & _ & _ & Cps & _).
  assert (Ev : trip_passengers r = v) by congruence.
  rewrite Ev in Epc. assert (Ex : pc = x) by congruence.
  rewrite Cps, Hps, Ex. reflexivity.
Qed.

Section whole_numbers.

(** Small whole numbers are not NaN as floats. *)
Lemma fill_small z :
  0 <= z < 168 -> row.fill (Num.float_of_int z) = Num.float_of_int z.
Proof.
  intros Hz. apply (small_cases 168) in Hz. cbn [seq map] in Hz.
  repeat (destruct Hz as [<-|Hz]; [vm_compute; reflexivity|]).
  contradiction.
Qed.

Lemma calendar_cell_whole (f : Z -> Z) bound t :
  (forall t, 0 <= f t < bound) -> bound <= 168 ->
  exists z, calendar_cell f t = Num.float_of_int z
            /\ match t with
               | Some t => z = f t
               | None => z = -1
               end.
Proof.
  intros Hf Hb. destruct t as [t|]; cbn [calendar_cell].
  - exists (f t). split; [|reflexivity].
    apply fill_small. specialize (Hf t). lia.
  - exists (-1). split; reflexivity.
Qed.

Lemma week_hour_cell_whole t :
  exists z, week_hour_cell t = Num.float_of_int z
            /\ match t with
               | Some t => z = Timestamp.weekday t * 24 + Timestamp.hour t
               | None => z = -1
               end.
Proof.
  destruct t as [t|]; cbn [week_hour_cell].
  - eexists. split; [|reflexivity].
    apply fill_small.
    pose proof (weekday_range t). pose proof (hour_range t). lia.
  - exists (-1). split; reflexivity.
Qed.

Lemma times_five z :
  -1 <= z < 7 ->
  (Num.float_of_int z * Num.float_of_int 5)%float = Num.float_of_int (5 * z).
Proof.
  intros Hz.
  assert (H : 0 <= z + 1 < 8) by lia.
  apply (small_cases 8) in H. cbn [seq map] in H.
  repeat (destruct H as [H|H];
          [replace z with (Z.of_nat (Z.to_nat (z + 1)) - 1) by lia;
           rewrite <- H; vm_compute; reflexivity|]).
  contradiction.
Qed.

End whole_numbers.

(** X6: on a taxi table with distinct column names, the calendar cells of
    an output row are whole numbers.  For a row
    with a pickup time the weekday is in 0..6, the hour in 0..23, the
    minute in 0..59 and the week-hour, weekday * 24 + hour, in 0..167; for
    a row without one the four cells are -1. *)
Theorem calendar_cells_in_range (h : gmap nat DataFrame) taxi_df taxi k i :
  h !! taxi_df = Some taxi ->
  taxi_table taxi ->
  distinct_columns taxi ->
  positive_rows taxi !! k = Some i ->
  exists out pickup wd hr mn wh,
    prep_df_result h taxi_df = Some out
    /\ pickup_cell taxi i = Some pickup
    /\ float_cell out "pickup_weekday" k = Some (Num.float_of_int wd)
    /\ float_cell out "pickup_hour" k = Some (Num.float_of_int hr)
    /\ float_cell out "pickup_minute" k = Some (Num.float_of_int mn)
    /\ float_cell out "pickup_week_hour" k = Some (Num.float_of_int wh)
    /\ match pickup with
       | Some _ => 0 <= wd < 7 /\ 0 <= hr < 24 /\ 0 <= mn < 60
                   /\ wh = wd * 24 + hr /\ 0 <= wh < 168
       | None => wd = -1 /\ hr = -1 /\ mn = -1 /\ wh = -1
       end.
Proof.
  intros Hin Htable Hdistinct Hk.
  destruct (prep_df_rows h taxi_df taxi Hin Htable)
    as (out & Hout & _ & _ & _ & Hrows).
  destruct (Hrows k i Hk) as (r & f & Hr & Hf & Hfeat).
  apply trip_at_cells in Hr. destruct Hr as (_ & Hpickup & _).
  apply derive_row_fields in Hf.
  destruct Hf as (? & ? & ? & _ & _ & _ & _ & Hwd & _ & Hhr & Hwh & Hmn & _).
  apply features_at_cells in Hfeat.
  destruct Hfeat as (_ & Cwd & _ & Chr & Cwh & Cmn & _).
  destruct (calendar_cell_whole Timestamp.weekday 7 (trip_pickup r) weekday_range
              ltac:(lia)) as (wd & Ewd & Vwd).
  destruct (calendar_cell_whole Timestamp.hour 24 (trip_pickup r) hour_range
              ltac:(lia)) as (hr & Ehr & Vhr).
  destruct (calendar_cell_whole Timestamp.minute 60 (trip_pickup r) minute_range
              ltac:(lia)) as (mn & Emn & Vmn).
  destruct (week_hour_cell_whole (trip_pickup r)) as (wh & Ewh & Vwh).
  exists out, (trip_pickup r), wd, hr, mn, wh.
  split; [exact Hout|]. split; [exact Hpickup|].
  split; [rewrite Cwd, Hwd, Ewd; reflexivity|].
  split; [rewrite Chr, Hhr, Ehr; reflexivity|].
  split; [rewrite Cmn, Hmn, Emn; reflexivity|].
  split; [rewrite Cwh, Hwh, Ewh; reflexivity|].
  destruct (trip_pickup r) as [t|].
  - pose proof (weekday_range t). pose proof (hour_range t).
    pose proof (minute_range t). subst. repeat split; lia.
  - repeat split; assumption.
Qed.

Section myfunc_facts.

Lemma myfunc_run (h : gmap nat DataFrame) df d :
  h !! df = Some d -> myfunc df h = (h, myfunc_value d).
Proof.
  intros H. unfold myfunc, myfunc_value, bind, pd_getitem, read, lift.
  rewrite H. destruct (frame.col d "pickup_weekday"); reflexivity.
Qed.

Lemma float_cell_lookup d c xs k :
  frame.lookup_col (columns d) c = Some (Float64 xs) ->
  float_cell d c k = xs !! k.
Proof.
  intros H. unfold float_cell, cell. rewrite H. cbn [mbind option_bind series_nth].
  destruct (xs !! k); reflexivity.
Qed.

End myfunc_facts.

(** X10: [myfunc] applied to a table [prep_df] returned for a taxi table
    does not raise and changes nothing.  It gives a float column with one
    entry per row, five times the weekday cell of the row: one of 0, 5,
    ..., 30, or -5 for a row without pickup time. *)
Theorem myfunc_after_prep_df (h h1 : gmap nat DataFrame) taxi_df taxi taxi_feat :
  h !! taxi_df = Some taxi ->
  taxi_table taxi ->
  prep_df taxi_df h = (h1, Ok taxi_feat) ->
  exists feat vs,
    h1 !! taxi_feat = Some feat
    /\ myfunc taxi_feat h1 = (h1, Ok (Float64 vs))
    /\ length vs = length (index feat)
    /\ (forall k wd, float_cell feat "pickup_weekday" k = Some wd ->
          vs !! k = Some (wd * 5)%float)
    /\ (forall k v, vs !! k = Some v ->
          exists z, -1 <= z < 7 /\ v = Num.float_of_int (5 * z)).
Proof.
  intros Hin Htable Hrun.
  destruct (prep_df_rows h taxi_df taxi Hin Htable)
    as (out & Hout & Hnames & Hlen & Hcols & Hrows).
  destruct (prep_df_run_ok h h1 taxi_df taxi_feat Hrun)
    as (taxi' & feat & Hin' & Hval & Hfeat & _ & _).
  assert (Efeat : out = feat).
  { unfold prep_df_result in Hout. rewrite Hrun, Hfeat in Hout. congruence. }
  subst out.
  destruct (lookup_col_Some_name (columns feat) "pickup_weekday") as [s Hs].
  { rewrite Hnames. cbn. auto. }
  rewrite Forall_forall in Hcols.
  destruct (Hcols _ (proj2 (list_elem_of_In _ _) (lookup_col_In _ _ _ Hs)))
    as (ws & Es & Lws & _).
  cbn [snd] in Es. subst s.
  exists feat, (map (fun x => (x * Num.float_of_int 5)%float) ws).
  split; [exact Hfeat|]. split.
  { rewrite (myfunc_run h1 taxi_feat feat Hfeat).
    unfold myfunc_value, frame.col. rewrite Hs. reflexivity. }
  split; [rewrite length_map; exact Lws|]. split.
  - intros k wd Hwd. rewrite (float_cell_lookup _ _ _ _ Hs) in Hwd.
    change (map ?f ws) with (f <$> ws). rewrite list_lookup_fmap, Hwd.
    reflexivity.
  - intros k v Hv.
    change (map ?f ws) with (f <$> ws) in Hv. rewrite list_lookup_fmap in Hv.
    destruct (ws !! k) as [w|] eqn:Hw; [|discriminate].
    cbn in Hv. injection Hv as <-.
    assert (Hk : (k < length (positive_rows taxi))%nat).
    { rewrite <- Hlen, <- Lws. eapply lookup_lt_Some. exact Hw. }
    destruct (lookup_lt_is_Some_2 _ _ Hk) as [i Hi].
    destruct (Hrows k i Hi) as (r & f & _ & Hf & Hfeatk).
    apply derive_row_fields in Hf.
    destruct Hf as (? & ? & ? & _ & _ & _ & _ & Hwd & _).
    apply features_at_cells in Hfeatk. destruct Hfeatk as (_ & Cwd & _).
    rewrite (float_cell_lookup _ _ _ _ Hs), Hw in Cwd.
    destruct (calendar_cell_whole Timestamp.weekday 7 (trip_pickup r)
                weekday_range ltac:(lia)) as (z & Ez & Vz).
    assert (Ew : w = Num.float_of_int z) by congruence.
    assert (Hz : -1 <= z < 7).
    { destruct (trip_pickup r) as [t|]; [pose proof (weekday_range t)|]; lia. }
    exists z. split; [exact Hz|]. rewrite Ew. apply times_five, Hz.
Qed.

Section nothing_kept.

Lemma filter_none {A} (f : A -> bool) l :
  (forall x, In x l -> f x = false) -> List.filter f l = [].
Proof.
  induction l as [|x l IH]; intros H; [reflexivity|].
  cbn [List.filter]. rewrite (H x (or_introl eq_refl)).
  apply IH. intros y Hy. apply H. right. exact Hy.
Qed.

Lemma empty_float_columns (cs : list (string * Series)) names :
  map fst cs = names ->
  Forall (fun x => exists xs, x.2 = Float64 xs /\ length xs = 0%nat
                              /\ Forall (fun v => Num.isna v = false) xs) cs ->
  cs = map (fun c => (c, Float64 [])) names.
Proof.
  intros <-. induction 1 as [|[c s] cs (xs & Hs & Hlen & _) _ IH];
    [reflexivity|].
  cbn [map fst]. rewrite <- IH. cbn [snd] in Hs. subst s.
  destruct xs; [reflexivity | discriminate].
Qed.

End nothing_kept.

(** X5: when no row of a taxi table with distinct column names has a
    positive fare (a table without
    rows, or fares that are all zero, negative or NaN), [prep_df] returns
    the table without rows that has the seven float columns. *)
Theorem prep_df_nothing_kept (h : gmap nat DataFrame) taxi_df taxi :
  h !! taxi_df = Some taxi ->
  taxi_table taxi ->
  distinct_columns taxi ->
  (forall i v, cell taxi "fare_amount" i = Some v -> row.gt0 v = false) ->
  prep_df_result h taxi_df
  = Some {| index := [];
            columns := map (fun c => (c, Float64 [])) (features ++ [label]) |}.
Proof.
  intros Hin Htable Hdistinct Hfares.
  destruct (prep_df_rows h taxi_df taxi Hin Htable)
    as (out & Hout & Hnames & Hlen & Hcols & _).
  assert (Hpos : positive_rows taxi = []).
  { apply filter_none. intros i _. unfold fare_positive.
    destruct (cell taxi "fare_amount" i) as [v|] eqn:E; [|reflexivity].
    apply (Hfares i v E). }
  rewrite Hpos in Hlen. cbn [length] in Hlen.
  rewrite Hout. f_equal. destruct out as [idx cs]. cbn [index columns] in *.
  destruct idx; [|discriminate]. f_equal.
  apply empty_float_columns; [exact Hnames|].
  rewrite Hlen in Hcols. exact Hcols.
Qed.

Section when_prep_df_returns.

Lemma setitem_inv c s d d' :
  frame.setitem c s d = Ok d' ->
  d' = {| index := index d; columns := frame.set_col (columns d) c s |}.
Proof.
  unfold frame.setitem.
  destruct (Nat.eqb (series.len s) (length (index d))); [|discriminate].
  intros H. injection H as <-. reflexivity.
Qed.

Lemma setitem_other c s d d' c' :
  frame.setitem c s d = Ok d' -> c <> c' -> frame.col d' c' = frame.col d c'.
Proof.
  intros H Hne. apply setitem_inv in H. subst d'.
  unfold frame.col. cbn [columns]. rewrite lookup_set_col.
  destruct (String.eqb_spec c c'); [contradiction | reflexivity].
Qed.

Lemma set_label_other d d' c :
  value.set_label d = Ok d' -> label <> c -> frame.col d' c = frame.col d c.
Proof.
  unfold value.set_label. intros H Hne.
  do 3 (apply rbind_ok in H; destruct H as (? & _ & H)).
  exact (setitem_other _ _ _ _ _ H Hne).
Qed.

Lemma set_dt_field_other c0 f d d' c :
  value.set_dt_field c0 f d = Ok d' -> c0 <> c -> frame.col d' c = frame.col d c.
Proof.
  unfold value.set_dt_field. intros H Hne.
  do 2 (apply rbind_ok in H; destruct H as (? & _ & H)).
  exact (setitem_other _ _ _ _ _ H Hne).
Qed.

Lemma set_week_hour_other d d' c :
  value.set_week_hour d = Ok d' -> "pickup_week_hour"%string <> c ->
  frame.col d' c = frame.col d c.
Proof.
  unfold value.set_week_hour. intros H Hne.
  do 4 (apply rbind_ok in H; destruct H as (? & _ & H)).
  exact (setitem_other _ _ _ _ _ H Hne).
Qed.

Lemma to_float_numeric s xs : series.to_float s = Ok xs -> numeric s.
Proof. destruct s; simpl; intros H; try discriminate; exact I. Qed.

Lemma gt0_numeric s m : series.gt0 s = Ok m -> numeric s.
Proof. destruct s; simpl; intros H; try discriminate; exact I. Qed.

Lemma dt_field_datetime f s v :
  series.dt_field f s = Ok v -> exists ts, s = Datetime64 ts.
Proof. destruct s; simpl; intros H; try discriminate; eauto. Qed.

Lemma filter_numeric m s : numeric (series.filter m s) -> numeric s.
Proof. destruct s; simpl; auto. Qed.

Lemma filter_datetime m s ts :
  series.filter m s = Datetime64 ts -> exists ts0, s = Datetime64 ts0.
Proof. destruct s; simpl; intros H; try discriminate; eauto. Qed.

Lemma astype_float_numeric d d' c s :
  frame.astype_float d = Ok d' -> frame.col d c = Ok s -> numeric s.
Proof.
  unfold frame.astype_float. intros H Hc.
  apply rbind_ok in H. destruct H as (cs' & Hcs & _).
  apply col_lookup, lookup_col_In in Hc.
  revert cs' Hcs. induction (columns d) as [|[c0 s0] cs IH]; intros cs' Hcs;
    [contradiction|].
  simpl in Hcs.
  apply rbind_ok in Hcs. destruct Hcs as (b & Hb & Hcs).
  apply rbind_ok in Hcs. destruct Hcs as (bs & Hbs & _).
  destruct Hc as [Hc|Hc].
  - injection Hc as -> ->. cbn [snd] in Hb.
    apply rbind_ok in Hb. destruct Hb as (s' & Hs' & _).
    unfold series.astype_float in Hs'.
    apply rbind_ok in Hs'. destruct Hs' as (xs & Hxs & _).
    exact (to_float_numeric _ _ Hxs).
  - exact (IH Hc bs Hbs).
Qed.

(** The raw columns of the table the first statement builds are the
    masked raw columns of the input. *)
Lemma select_rows_cols taxi d :
  value.select_rows taxi = Ok d ->
  exists fare m,
    frame.lookup_col (columns taxi) "fare_amount" = Some fare
    /\ series.gt0 fare = Ok m
    /\ forall c, In c raw_features ->
         exists s, frame.lookup_col (columns taxi) c = Some s
                   /\ frame.col d c = Ok (series.filter m s).
Proof.
  unfold value.select_rows. intros H.
  apply rbind_ok in H. destruct H as (fare & Hfare & H).
  apply rbind_ok in H. destruct H as (m & Hm & H).
  apply rbind_ok in H. destruct H as (p & Hp & H).
  apply rbind_ok in H. destruct H as (raw & Hraw & H).
  injection H as <-.
  exists fare, m. split; [apply attr_lookup, Hfare|]. split; [exact Hm|].
  intros c Hc.
  rewrite (getitem_cols_col _ _ _ c Hraw Hc).
  destruct (lookup_col_Some_name (columns raw) c) as [s' Hs'].
  { rewrite (getitem_cols_names _ _ _ Hraw). exact Hc. }
  apply col_lookup in Hs'. rewrite (getitem_cols_col _ _ _ c Hraw Hc) in Hs'.
  unfold frame.getitem_mask in Hp.
  destruct (Nat.eqb (length m) (length (index taxi))); [|discriminate].
  injection Hp as <-.
  apply col_lookup in Hs'. cbn [columns] in Hs'.
  rewrite lookup_col_masked in Hs'.
  destruct (frame.lookup_col (columns taxi) c) as [s|] eqn:E; [|discriminate].
  exists s. split; [reflexivity|].
  unfold frame.col. cbn [columns]. rewrite lookup_col_masked, E. reflexivity.
Qed.

(** What a returning derivation tells about the input's columns. *)
Lemma prep_df_value_schema taxi out :
  value.prep_df taxi = Ok out ->
  (exists ts,
     frame.lookup_col (columns taxi) "tpep_pickup_datetime" = Some (Datetime64 ts))
  /\ (exists s, frame.lookup_col (columns taxi) "passenger_count" = Some s
                /\ numeric s)
  /\ (exists s, frame.lookup_col (columns taxi) "tip_amount" = Some s /\ numeric s)
  /\ (exists s, frame.lookup_col (columns taxi) "fare_amount" = Some s /\ numeric s).
Proof.
  unfold value.prep_df, value.derive. intros H.
  apply rbind_ok in H. destruct H as (df0 & H0 & H).
  apply rbind_ok in H. destruct H as (df1 & H1 & H).
  apply rbind_ok in H. destruct H as (df2 & H2 & H).
  apply rbind_ok in H. destruct H as (df3 & H3 & H).
  apply rbind_ok in H. destruct H as (df4 & H4 & H).
  apply rbind_ok in H. destruct H as (df5 & H5 & H).
  apply rbind_ok in H. destruct H as (df6 & H6 & H7).
  destruct (select_rows_cols taxi df0 H0) as (fare & m & Hfare & Hm & Hraw).
  destruct (Hraw "tpep_pickup_datetime"%string ltac:(cbn; auto)) as (sts & Lts & Cts).
  destruct (Hraw "passenger_count"%string ltac:(cbn; auto)) as (spc & Lpc & Cpc).
  destruct (Hraw "tip_amount"%string ltac:(cbn; auto)) as (stip & Ltip & Ctip).
  split; [|split; [|split]].
  - pose proof H2 as H2'. unfold value.set_dt_field in H2'.
    apply rbind_ok in H2'. destruct H2' as (tsv & Htsv & H2').
    apply rbind_ok in H2'. destruct H2' as (v & Hv & _).
    apply attr_col in Htsv.
    rewrite (set_label_other _ _ "tpep_pickup_datetime" H1) in Htsv
      by discriminate.
    assert (E : tsv = series.filter m sts) by congruence.
    apply dt_field_datetime in Hv. destruct Hv as [ts Hts].
    rewrite E in Hts. apply filter_datetime in Hts. destruct Hts as [ts0 ->].
    exists ts0. exact Lts.
  - exists spc. split; [exact Lpc|].
    unfold value.finish in H7.
    apply rbind_ok in H7. destruct H7 as (chosen & Hchosen & H7).
    apply rbind_ok in H7. destruct H7 as (floats & Hfloats & _).
    assert (Hcol : frame.col chosen "passenger_count" = Ok (series.filter m spc)).
    { rewrite (getitem_cols_col _ _ _ "passenger_count" Hchosen)
        by (cbn; auto 10).
      rewrite (set_dt_field_other _ _ _ _ "passenger_count" H6) by discriminate.
      rewrite (set_week_hour_other _ _ "passenger_count" H5) by discriminate.
      rewrite (set_dt_field_other _ _ _ _ "passenger_count" H4) by discriminate.
      rewrite (set_dt_field_other _ _ _ _ "passenger_count" H3) by discriminate.
      rewrite (set_dt_field_other _ _ _ _ "passenger_count" H2) by discriminate.
      rewrite (set_label_other _ _ "passenger_count" H1) by discriminate.
      exact Cpc. }
    exact (filter_numeric m spc (astype_float_numeric _ _ _ _ Hfloats Hcol)).
  - exists stip. split; [exact Ltip|].
    unfold value.set_label in H1.
    apply rbind_ok in H1. destruct H1 as (tv & Htv & H1).
    apply rbind_ok in H1. destruct H1 as (fv & _ & H1).
    apply rbind_ok in H1. destruct H1 as (q & Hq & _).
    unfold series.truediv in Hq.
    apply rbind_ok in Hq. destruct Hq as (xs & Hxs & _).
    apply attr_col in Htv.
    assert (E : tv = series.filter m stip) by congruence.
    rewrite E in Hxs. exact (filter_numeric m stip (to_float_numeric _ _ Hxs)).
  - exists fare. split; [exact Hfare | exact (gt0_numeric _ _ Hm)].
Qed.

End when_prep_df_returns.

(** X1: among the tables of float64, int64 and datetime64 columns with
    distinct names, all as long as the index, [prep_df] returns a table
    exactly when the input has a datetime [tpep_pickup_datetime] column and
    float64 or int64 [passenger_count], [tip_amount] and [fare_amount]
    columns; on the others it raises. *)
Theorem prep_df_returns_iff (h : gmap nat DataFrame) taxi_df taxi :
  h !! taxi_df = Some taxi ->
  rectangular taxi ->
  distinct_columns taxi ->
  ((exists out, prep_df_result h taxi_df = Some out) <-> taxi_table taxi)
  /\ ((exists e, (prep_df taxi_df h).2 = Raise e) <-> ~ taxi_table taxi).
Proof.
  intros Hin Hrect Hdistinct.
  assert (Hiff : (exists out, prep_df_result h taxi_df = Some out)
                 <-> taxi_table taxi).
  { split.
    - intros [out Hout]. apply prep_df_result_inv in Hout.
      destruct Hout as (taxi' & Hin' & Hval).
      assert (E : taxi' = taxi) by congruence. subst taxi'.
      destruct (prep_df_value_schema taxi out Hval) as (Hts & Hpc & Htip & Hfare).
      constructor; assumption.
    - intros Htable.
      destruct (prep_df_rows h taxi_df taxi Hin Htable) as (out & Hout & _).
      exists out. exact Hout. }
  split; [exact Hiff|].
  rewrite <- Hiff.
  destruct (prep_df_refines taxi_df h taxi Hin) as (h' & _ & Hf).
  rewrite (prep_df_result_value h taxi_df taxi Hin).
  destruct (value.prep_df taxi) as [out|e].
  - destruct Hf as (l & -> & _). cbn [snd]. split.
    + intros [e He]. discriminate.
    + intros H. exfalso. apply H. eauto.
  - rewrite Hf. cbn [snd]. split.
    + intros _ [out Hout]. discriminate.
    + intros _. eauto.
Qed.

Section tables_in_parts.

Lemma mask_filter_app {A} (m1 m2 : list bool) (xs1 xs2 : list A) :
  length m1 = length xs1 ->
  mask_filter (m1 ++ m2) (xs1 ++ xs2) = mask_filter m1 xs1 ++ mask_filter m2 xs2.
Proof.
  revert xs1. induction m1 as [|b m1 IH]; intros [|x xs1] H; simpl in *;
    try discriminate; [reflexivity|].
  injection H as H. rewrite (IH xs1 H). destruct b; reflexivity.
Qed.

Lemma series_stack_len s t st :
  series_stack s t = Some st -> series.len st = (series.len s + series.len t)%nat.
Proof.
  destruct s, t; simpl; intros H; try discriminate; injection H as <-;
    apply length_app.
Qed.

Lemma series_stack_gt0 s t st m1 m2 :
  series_stack s t = Some st ->
  series.gt0 s = Ok m1 -> series.gt0 t = Ok m2 ->
  series.gt0 st = Ok (m1 ++ m2).
Proof.
  destruct s, t; simpl; intros H H1 H2; try discriminate;
    injection H as <-; injection H1 as <-; injection H2 as <-;
    simpl; rewrite map_app; reflexivity.
Qed.

Lemma series_stack_to_float s t st xs ys :
  series_stack s t = Some st ->
  series.to_float s = Ok xs -> series.to_float t = Ok ys ->
  series.to_float st = Ok (xs ++ ys).
Proof.
  destruct s, t; simpl; intros H H1 H2; try discriminate;
    injection H as <-; injection H1 as <-; injection H2 as <-;
    simpl; rewrite ?map_app; reflexivity.
Qed.

Lemma series_stack_mul_int s t st k u v :
  series_stack s t = Some st ->
  series.mul_int s k = Ok u -> series.mul_int t k = Ok v ->
  exists w, series.mul_int st k = Ok w /\ series_stack u v = Some w.
Proof.
  destruct s, t; simpl; intros H H1 H2; try discriminate;
    injection H as <-; injection H1 as <-; injection H2 as <-;
    simpl; rewrite map_app; eauto.
Qed.

Lemma stack_cols_lookup cs ds es c s :
  stack_cols cs ds = Some es ->
  frame.lookup_col cs c = Some s ->
  exists t st, frame.lookup_col ds c = Some t
               /\ series_stack s t = Some st
               /\ frame.lookup_col es c = Some st.
Proof.
  revert ds es. induction cs as [|[c1 s1] cs IH]; intros [|[c2 s2] ds] es H Hs;
    simpl in *; try discriminate.
  destruct (String.eqb_spec c1 c2) as [<-|]; [|discriminate].
  apply bind_Some_inv in H. destruct H as (st1 & Hst1 & H).
  apply bind_Some_inv in H. destruct H as (rest & Hrest & H).
  injection H as <-. cbn [frame.lookup_col].
  destruct (String.eqb c1 c).
  - injection Hs as <-. eauto.
  - exact (IH ds rest Hrest Hs).
Qed.

Lemma stack_cols_rect cs ds es n1 n2 :
  stack_cols cs ds = Some es ->
  Forall (fun x => series.len x.2 = n1) cs ->
  Forall (fun x => series.len x.2 = n2) ds ->
  Forall (fun x => series.len x.2 = (n1 + n2)%nat) es.
Proof.
  revert ds es. induction cs as [|[c1 s1] cs IH]; intros [|[c2 s2] ds] es H H1 H2;
    simpl in *; try discriminate.
  - injection H as <-. constructor.
  - destruct (String.eqb c1 c2); [|discriminate].
    apply bind_Some_inv in H. destruct H as (st1 & Hst1 & H).
    apply bind_Some_inv in H. destruct H as (rest & Hrest & H).
    injection H as <-.
    apply Forall_cons in H1. destruct H1 as [L1 H1].
    apply Forall_cons in H2. destruct H2 as [L2 H2].
    constructor; [|exact (IH ds rest Hrest H1 H2)].
    cbn [snd] in *. rewrite (series_stack_len _ _ _ Hst1). congruence.
Qed.

Lemma stack_datetime ts t st :
  series_stack (Datetime64 ts) t = Some st ->
  exists ts', t = Datetime64 ts' /\ st = Datetime64 (ts ++ ts').
Proof. destruct t; simpl; intros H; try discriminate; injection H as <-; eauto. Qed.

Lemma stack_derived i1 t1 p1 x1 y1 i2 t2 p2 x2 y2 :
  length x1 = length y1 ->
  stack (derived i1 t1 p1 x1 y1) (derived i2 t2 p2 x2 y2)
  = Some (derived (i1 ++ i2) (t1 ++ t2) (p1 ++ p2) (x1 ++ x2) (y1 ++ y2)).
Proof.
  intros Hlen. unfold stack, derived.
  cbn [columns index stack_cols String.eqb Ascii.eqb Bool.eqb series_stack
       mbind option_bind].
  rewrite !map_app, (zip_with_app PrimFloat.div x1 x2 y1 y2 Hlen), map_app.
  reflexivity.
Qed.

End tables_in_parts.

(** X8: the features can be derived part by part.  For two taxi tables with
    distinct column names, the same columns and the same dtypes, [prep_df]
    of the table that holds the rows of the first followed by the rows of
    the second is the result for the first followed by the result for the
    second. *)
Theorem prep_df_part_by_part
    (ha hb h : gmap nat DataFrame) la lb l (a b ab : DataFrame) :
  ha !! la = Some a ->
  hb !! lb = Some b ->
  h !! l = Some ab ->
  taxi_table a ->
  taxi_table b ->
  distinct_columns a ->
  distinct_columns b ->
  stack a b = Some ab ->
  exists oa ob oab,
    prep_df_result ha la = Some oa
    /\ prep_df_result hb lb = Some ob
    /\ prep_df_result h l = Some oab
    /\ stack oa ob = Some oab.
Proof.
  intros Ha Hb Hab Ta Tb Hda Hdb Hstack.
  destruct Ta as [Ra [tsa Htsa] (pca & Hpca & Npca) (tipa & Htipa & Ntipa)
                    (farea & Hfarea & Nfarea)].
  destruct Tb as [Rb [tsb Htsb] (pcb & Hpcb & Npcb) (tipb & Htipb & Ntipb)
                    (fareb & Hfareb & Nfareb)].
  destruct (numeric_gt0 _ Nfarea) as [ma Hma].
  destruct (numeric_gt0 _ Nfareb) as [mb Hmb].
  destruct (numeric_to_float _ Npca) as [pcfa Fpca].
  destruct (numeric_to_float _ Npcb) as [pcfb Fpcb].
  destruct (numeric_to_float _ Ntipa) as [tipfa Ftipa].
  destruct (numeric_to_float _ Ntipb) as [tipfb Ftipb].
  destruct (numeric_to_float _ Nfarea) as [farefa Ffarea].
  destruct (numeric_to_float _ Nfareb) as [farefb Ffareb].
  unfold stack in Hstack. apply bind_Some_inv in Hstack.
  destruct Hstack as (cs & Hcs & Hstack). injection Hstack as <-.
  destruct (stack_cols_lookup _ _ _ _ _ Hcs Htsa) as (t1 & st1 & L1 & S1 & Hts).
  destruct (stack_cols_lookup _ _ _ _ _ Hcs Hpca) as (t2 & pc & L2 & S2 & Hpc).
  destruct (stack_cols_lookup _ _ _ _ _ Hcs Htipa) as (t3 & tip & L3 & S3 & Htip).
  destruct (stack_cols_lookup _ _ _ _ _ Hcs Hfarea) as (t4 & fare & L4 & S4 & Hfare).
  assert (E1 : t1 = Datetime64 tsb) by congruence.
  assert (E2 : t2 = pcb) by congruence.
  assert (E3 : t3 = tipb) by congruence.
  assert (E4 : t4 = fareb) by congruence.
  subst t1 t2 t3 t4.
  apply stack_datetime in S1. destruct S1 as (ts' & Ets & ->).
  injection Ets as <-.
  set (ab := {| index := index a ++ index b; columns := cs |}) in *.
  assert (Rab : Forall (fun x => series.len x.2 = length (index ab)) (columns ab)).
  { cbn [ab index columns]. rewrite length_app.
    exact (stack_cols_rect _ _ _ _ _ Hcs Ra Rb). }
  pose proof (series_stack_gt0 _ _ _ _ _ S4 Hma Hmb) as Hm.
  pose proof (series_stack_to_float _ _ _ _ _ S2 Fpca Fpcb) as Fpc.
  pose proof (series_stack_to_float _ _ _ _ _ S3 Ftipa Ftipb) as Ftip.
  pose proof (series_stack_to_float _ _ _ _ _ S4 Ffarea Ffareb) as Ffare.
  pose proof (lookup_col_len a _ _ Ra Htsa) as Ltsa. cbn [series.len] in Ltsa.
  pose proof (lookup_col_len a _ _ Ra Hpca) as Lpca.
  pose proof (lookup_col_len a _ _ Ra Htipa) as Ltipa.
  pose proof (lookup_col_len a _ _ Ra Hfarea) as Lfarea.
  pose proof (to_float_len _ _ Fpca) as Lpcfa.
  pose proof (to_float_len _ _ Ftipa) as Ltipfa.
  pose proof (to_float_len _ _ Ffarea) as Lfarefa.
  pose proof (gt0_len _ _ Hma) as Lma.
  do 3 eexists.
  split.
  { rewrite (prep_df_result_value ha la a Ha).
    rewrite (prep_df_value_ok a tsa pca tipa farea Ra Htsa Hpca Htipa Hfarea
               ma pcfa tipfa farefa Hma Fpca Ftipa Ffarea).
    reflexivity. }
  split.
  { rewrite (prep_df_result_value hb lb b Hb).
    rewrite (prep_df_value_ok b tsb pcb tipb fareb Rb Htsb Hpcb Htipb Hfareb
               mb pcfb tipfb farefb Hmb Fpcb Ftipb Ffareb).
    reflexivity. }
  split.
  { rewrite (prep_df_result_value h l ab Hab).
    rewrite (prep_df_value_ok ab (tsa ++ tsb) pc tip fare Rab Hts Hpc Htip Hfare
               (ma ++ mb) (pcfa ++ pcfb) (tipfa ++ tipfb) (farefa ++ farefb)
               Hm Fpc Ftip Ffare).
    reflexivity. }
  cbn [ab index].
  rewrite !mask_filter_app by congruence.
  apply stack_derived.
  rewrite !mask_filter_length; congruence.
Qed.

(** X11: [map_partitions(myfunc)] gives the parts of what [myfunc] gives for
    the whole table: for two tables with the same columns and dtypes on
    which [myfunc] returns, it returns on the table holding the rows of
    both, and the result is the first result followed by the second. *)
Theorem myfunc_part_by_part (a b ab : DataFrame) (sa sb : Series) :
  stack a b = Some ab ->
  myfunc_value a = Ok sa ->
  myfunc_value b = Ok sb ->
  exists sab, myfunc_value ab = Ok sab /\ series_stack sa sb = Some sab.
Proof.
  unfold myfunc_value. intros Hstack Hsa Hsb.
  apply rbind_ok in Hsa. destruct Hsa as (wa & Hwa & Hsa).
  apply rbind_ok in Hsb. destruct Hsb as (wb & Hwb & Hsb).
  unfold stack in Hstack. apply bind_Some_inv in Hstack.
  destruct Hstack as (cs & Hcs & Hstack). injection Hstack as <-.
  apply col_lookup in Hwa. apply col_lookup in Hwb.
  destruct (stack_cols_lookup _ _ _ _ _ Hcs Hwa) as (t & st & Lt & Hst & Hlook).
  assert (E : t = wb) by congruence. subst t.
  destruct (series_stack_mul_int _ _ _ 5 _ _ Hst Hsa Hsb) as (w & Hw & Hstack).
  exists w. split; [|exact Hstack].
  unfold frame.col. cbn [columns]. rewrite Hlook. exact Hw.
Qed.

(** ** The code around [prep_df], on the samples *)

Example stack_sample : stack sample_taxi sample_part = Some sample_whole.
Proof. vm_compute. reflexivity. Qed.

(** Tables that differ in a column name or a dtype are outside [stack]. *)
Example stack_outside :
  stack sample_taxi sample_raw = None /\ stack sample_taxi sample_features = None.
Proof. vm_compute. split; reflexivity. Qed.

Lemma prep_df_reads_raw_columns_only_witness :
  (sample_store !! 7%nat = Some sample_taxi
   /\ ({[ 3%nat := sample_raw ]} : gmap nat DataFrame) !! 3%nat = Some sample_raw
   /\ distinct_columns sample_taxi
   /\ distinct_columns sample_raw
   /\ index sample_taxi = index sample_raw
   /\ (forall c, In c raw_features ->
         frame.lookup_col (columns sample_taxi) c
         = frame.lookup_col (columns sample_raw) c))
  /\ prep_df_result sample_store 7 = prep_df_result {[ 3%nat := sample_raw ]} 3.
Proof.
  assert (H : forall c, In c raw_features ->
                frame.lookup_col (columns sample_taxi) c
                = frame.lookup_col (columns sample_raw) c).
  { intros c Hc. cbn in Hc.
    destruct Hc as [<-|[<-|[<-|[<-|[]]]]]; vm_compute; reflexivity. }
  split.
  - repeat split; try by_computation. exact H.
  - apply (prep_df_reads_raw_columns_only sample_store {[ 3%nat := sample_raw ]}
             7 3 sample_taxi sample_raw); try by_computation. exact H.
Defined.

Lemma prep_df_of_its_output_raises_witness :
  (prep_df_result sample_store 7 = Some sample_features
   /\ ({[ 3%nat := sample_features ]} : gmap nat DataFrame) !! 3%nat
      = Some sample_features)
  /\ (exists e, prep_df 3 {[ 3%nat := sample_features ]}
                = ({[ 3%nat := sample_features ]}, Raise e))
  /\ prep_df_result {[ 3%nat := sample_features ]} 3 = None.
Proof.
  split.
  - split; by_computation.
  - apply (prep_df_of_its_output_raises sample_store {[ 3%nat := sample_features ]}
             7 3 sample_features); by_computation.
Defined.

Lemma model_inputs_after_prep_df_witness :
  (sample_store !! 7%nat = Some sample_taxi
   /\ distinct_columns sample_taxi
   /\ prep_df 7 sample_store = ((prep_df 7 sample_store).1, Ok 13%nat))
  /\ exists h2 X y feat Xd,
       model_inputs 13 (prep_df 7 sample_store).1 = (h2, Ok (X, y))
       /\ (prep_df 7 sample_store).1 !! 13%nat = Some feat
       /\ h2 !! 13%nat = Some feat
       /\ h2 !! 7%nat = sample_store !! 7%nat
       /\ h2 !! X = Some Xd
       /\ X <> 13%nat
       /\ map fst (columns Xd) = features
       /\ index Xd = index feat
       /\ (forall c, In c features ->
             frame.lookup_col (columns Xd) c = frame.lookup_col (columns feat) c)
       /\ frame.lookup_col (columns feat) "tip_fraction" = Some y.
Proof.
  split.
  - repeat split; by_computation.
  - apply (model_inputs_after_prep_df sample_store (prep_df 7 sample_store).1 7
             sample_taxi 13); by_computation.
Defined.

Lemma prep_df_returns_new_object_witness :
  prep_df 7 sample_store = ((prep_df 7 sample_store).1, Ok 13%nat)
  /\ 13%nat <> 7%nat
  /\ sample_store !! 13%nat = None
  /\ preserves sample_store
       (pd.setitem 13 "tip_fraction" (Float64 [0; 0]%float)
          (prep_df 7 sample_store).1).1.
Proof.
  split.
  - by_computation.
  - apply (prep_df_returns_new_object sample_store (prep_df 7 sample_store).1 7 13
             "tip_fraction" (Float64 [0; 0]%float)).
    by_computation.
Defined.

Lemma passenger_count_carried_over_witness :
  (sample_store !! 7%nat = Some sample_taxi
   /\ taxi_table sample_taxi
   /\ distinct_columns sample_taxi
   /\ positive_rows sample_taxi !! 1%nat = Some 3%nat
   /\ cell sample_taxi "passenger_count" 3 = Some (SInt 3)
   /\ row.to_float (SInt 3) = Some 3%float)
  /\ exists out,
       prep_df_result sample_store 7 = Some out
       /\ float_cell out "passenger_count" 1
          = Some (if Num.isna 3 then (-1)%float else 3%float).
Proof.
  split.
  - on_sample.
  - apply (passenger_count_carried_over sample_store 7 sample_taxi 1 3 (SInt 3)
             3%float); try by_computation. taxi_table_tac.
Defined.

Lemma calendar_cells_in_range_witness :
  (sample_store !! 7%nat = Some sample_taxi
   /\ taxi_table sample_taxi
   /\ distinct_columns sample_taxi
   /\ positive_rows sample_taxi !! 0%nat = Some 0%nat)
  /\ exists out pickup wd hr mn wh,
       prep_df_result sample_store 7 = Some out
       /\ pickup_cell sample_taxi 0 = Some pickup
       /\ float_cell out "pickup_weekday" 0 = Some (Num.float_of_int wd)
       /\ float_cell out "pickup_hour" 0 = Some (Num.float_of_int hr)
       /\ float_cell out "pickup_minute" 0 = Some (Num.float_of_int mn)
       /\ float_cell out "pickup_week_hour" 0 = Some (Num.float_of_int wh)
       /\ match pickup with
          | Some _ => 0 <= wd < 7 /\ 0 <= hr < 24 /\ 0 <= mn < 60
                      /\ wh = wd * 24 + hr /\ 0 <= wh < 168
          | None => wd = -1 /\ hr = -1 /\ mn = -1 /\ wh = -1
          end.
Proof.
  split.
  - on_sample.
  - apply (calendar_cells_in_range sample_store 7 sample_taxi 0 0);
      try by_computation. taxi_table_tac.
Defined.

Lemma myfunc_after_prep_df_witness :
  (sample_store !! 7%nat = Some sample_taxi
   /\ taxi_table sample_taxi
   /\ prep_df 7 sample_store = ((prep_df 7 sample_store).1, Ok 13%nat))
  /\ exists feat vs,
       (prep_df 7 sample_store).1 !! 13%nat = Some feat
       /\ myfunc 13 (prep_df 7 sample_store).1
          = ((prep_df 7 sample_store).1, Ok (Float64 vs))
       /\ length vs = length (index feat)
       /\ (forall k wd, float_cell feat "pickup_weekday" k = Some wd ->
             vs !! k = Some (wd * 5)%float)
       /\ (forall k v, vs !! k = Some v ->
             exists z, -1 <= z < 7 /\ v = Num.float_of_int (5 * z)).
Proof.
  split.
  - on_sample.
  - apply (myfunc_after_prep_df sample_store (prep_df 7 sample_store).1 7
             sample_taxi 13); try by_computation. taxi_table_tac.
Defined.

Lemma prep_df_nothing_kept_witness :
  (({[ 2%nat := sample_unpaid ]} : gmap nat DataFrame) !! 2%nat = Some sample_unpaid
   /\ taxi_table sample_unpaid
   /\ distinct_columns sample_unpaid
   /\ (forall i v, cell sample_unpaid "fare_amount" i = Some v ->
         row.gt0 v = false))
  /\ prep_df_result {[ 2%nat := sample_unpaid ]} 2
     = Some {| index := [];
               columns := map (fun c => (c, Float64 [])) (features ++ [label]) |}.
Proof.
  assert (H : forall i v, cell sample_unpaid "fare_amount" i = Some v ->
                row.gt0 v = false).
  { intros [|[|[|i]]] v Hv; vm_compute in Hv; try discriminate;
      injection Hv as <-; vm_compute; reflexivity. }
  split.
  - split; [by_computation|]. split; [taxi_table_tac|].
    split; [by_computation | exact H].
  - apply (prep_df_nothing_kept {[ 2%nat := sample_unpaid ]} 2 sample_unpaid);
      [by_computation | taxi_table_tac | by_computation | exact H].
Defined.

Lemma prep_df_returns_iff_witness :
  (sample_store !! 7%nat = Some sample_taxi /\ rectangular sample_taxi
   /\ distinct_columns sample_taxi)
  /\ ((exists out, prep_df_result sample_store 7 = Some out)
      <-> taxi_table sample_taxi)
  /\ ((exists e, (prep_df 7 sample_store).2 = Raise e) <-> ~ taxi_table sample_taxi).
Proof.
  split.
  - split; [by_computation|]. split; [repeat constructor | by_computation].
  - apply (prep_df_returns_iff sample_store 7 sample_taxi);
      [by_computation | repeat constructor | by_computation].
Defined.

Lemma prep_df_part_by_part_witness :
  (sample_store !! 7%nat = Some sample_taxi
   /\ ({[ 1%nat := sample_part ]} : gmap nat DataFrame) !! 1%nat = Some sample_part
   /\ ({[ 2%nat := sample_whole ]} : gmap nat DataFrame) !! 2%nat = Some sample_whole
   /\ taxi_table sample_taxi
   /\ taxi_table sample_part
   /\ distinct_columns sample_taxi
   /\ distinct_columns sample_part
   /\ stack sample_taxi sample_part = Some sample_whole)
  /\ exists oa ob oab,
       prep_df_result sample_store 7 = Some oa
       /\ prep_df_result {[ 1%nat := sample_part ]} 1 = Some ob
       /\ prep_df_result {[ 2%nat := sample_whole ]} 2 = Some oab
       /\ stack oa ob = Some oab.
Proof.
  split.
  - on_sample.
  - apply (prep_df_part_by_part sample_store {[ 1%nat := sample_part ]}
             {[ 2%nat := sample_whole ]} 7 1 2 sample_taxi sample_part sample_whole);
      try by_computation; taxi_table_tac.
Defined.

Lemma myfunc_part_by_part_witness :
  (stack sample_features sample_features
   = Some {| index := [0; 3; 0; 3];
             columns :=
               [("pickup_weekday", Float64 [0; -1; 0; -1]%float);
                ("pickup_weekofyear", Float64 [2; -1; 2; -1]%float);
                ("pickup_hour", Float64 [13; -1; 13; -1]%float);
                ("pickup_week_hour", Float64 [13; -1; 13; -1]%float);
                ("pickup_minute", Float64 [45; -1; 45; -1]%float);
                ("passenger_count", Float64 [1; 3; 1; 3]%float);
                ("tip_fraction", Float64 [0.2; -1; 0.2; -1]%float)]%string |}
   /\ myfunc_value sample_features = Ok (Float64 [0; -5]%float))
  /\ exists sab,
       myfunc_value
         {| index := [0; 3; 0; 3];
            columns :=
              [("pickup_weekday", Float64 [0; -1; 0; -1]%float);
               ("pickup_weekofyear", Float64 [2; -1; 2; -1]%float);
               ("pickup_hour", Float64 [13; -1; 13; -1]%float);
               ("pickup_week_hour", Float64 [13; -1; 13; -1]%float);
               ("pickup_minute", Float64 [45; -1; 45; -1]%float);
               ("passenger_count", Float64 [1; 3; 1; 3]%float);
               ("tip_fraction", Float64 [0.2; -1; 0.2; -1]%float)]%string |}
       = Ok sab
       /\ series_stack (Float64 [0; -5]%float) (Float64 [0; -5]%float) = Some sab.
Proof.
  split.
  - split; by_computation.
  - apply (myfunc_part_by_part sample_features sample_features); by_computation.
Defined.
